(** * Cyber_Test: the correlation pipeline and the mock API

    A shallow embedding of Homework14_Final/final_task.py
    ([fetch_vulners_data], [load_suricata_events], [analyze],
    [simulate_response]) with the properties of the natural-language
    specification that concern them, followed by further properties of
    that code and of Homework13/homework13_mock_api.py
    ([MockHandler.do_GET], [call_api]).

    Conventions.
    - Python values that come out of [json.loads] are the inductive type
      [json]; a dict is the list of its items, keys distinct.  Python
      exceptions are the second branch of [result].  A Python [str] is
      the string of its UTF-8 bytes: equality and order are those of the
      text, and [strip] removes the white space of [str.isspace].
    - A pandas [DataFrame] is a list of column names together with a list
      of rows.  Row labels are not modelled: the program writes its frames
      with [index=False] and iterates them with [for _, row in ...].
    - The event frame handed to [analyze] is typed as the data model of
      the specification has it ([Event.t]): event type and addresses are
      strings or missing, the severity is an integer or missing.  The
      loader itself copies whatever JSON the events carry ([Suricata.Row]).
      On a frame outside this type (a severity that is text) and on a
      score too large to convert the source raises where the model has
      no input; what is stated of [analyze] beyond the missing columns
      is stated of the runs that return.
    - The loader is modelled from the point where the file is open, on
      lines [json.loads] reads or rejects as not being JSON.  The rows
      of its frame are the dicts of the loop; the dtype pandas gives a
      column (integers beside a missing value are held as floats) is not
      modelled, and the properties of the frame are those of its shape.
    - pandas behaviour the model relies on: [groupby] sorts the group keys
      and drops missing ones (defaults [sort=True], [dropna=True]);
      [concat(axis=1)] joins on the union of the labels, those of the
      first series first ([sort=False]); a boolean mask keeps the order of
      the rows; [sort_values] is known by its contract ([SortValues]).
    - Counts live in [Z].  pandas keeps them in int64 columns; a count is
      bounded by the number of rows of a frame held in memory, and lemma
      [EngineFacts.risk_score_fits_int64] shows that below 2^60 rows no
      value of the statistics table leaves the int64 range.
    - CVSS scores are binary64 floats ([PrimFloat]).
    - Console output ([print]) is not part of any returned value and is
      left out of [simulate_response]; the lines it prints, with the two
      notification settings that only feed them, are
      [simulate_response_prints].
    - The mock API: the handler is a function of what it reads of the
      request and of the clock; HTTP transport and the text of the body
      ([json.dumps], [json.loads]) are the libraries'.  The client's loop
      runs against a network given as what each successive request
      meets; what the transport makes of the key header is a parameter
      ([MockApi.delivered]). *)

From Stdlib Require Import ZArith List String Ascii Bool Lia.
From Stdlib Require Import Permutation Sorted.
From Stdlib Require Import PrimFloat FloatOps SpecFloat DecimalString.
Import ListNotations.

Local Open Scope string_scope.
Local Open Scope list_scope.
Local Open Scope Z_scope.

(** ** Python: exceptions, results, JSON values *)

Module Py.

Inductive exn : Type :=
| KeyError (key : string)
| AttributeError
| TypeError
| ValueError
| OverflowError
| JSONDecodeError
| HTTPError
| ConnectionError
| FileNotFoundError.

Inductive result (A : Type) : Type :=
| Ok (a : A)
| Raise (e : exn).
Arguments Ok {A} a.
Arguments Raise {A} e.

Definition bind {A B : Type} (c : result A) (k : A -> result B) : result B :=
  match c with
  | Ok a => k a
  | Raise e => Raise e
  end.

(** A [for] loop that appends one value per item and stops at the first
    exception. *)
Fixpoint for_each {A B : Type} (body : A -> result B) (items : list A)
  : result (list B) :=
  match items with
  | [] => Ok []
  | x :: rest =>
      bind (body x) (fun y =>
      bind (for_each body rest) (fun ys => Ok (y :: ys)))
  end.

#[warnings="-register-all"]
Inductive json : Type :=
| JNull
| JBool (b : bool)
| JInt (n : Z)
| JFloat (x : float)
| JStr (s : string)
| JArr (items : list json)
| JObj (fields : list (string * json)).

Definition is_None (v : json) : bool :=
  match v with JNull => true | _ => false end.

(** Truth value of a Python object. *)
Definition truthy (v : json) : bool :=
  match v with
  | JNull => false
  | JBool b => b
  | JInt n => negb (n =? 0)
  | JFloat x => negb (PrimFloat.eqb x 0%float)
  | JStr s => negb (s =? "")%string
  | JArr items => match items with [] => false | _ => true end
  | JObj fields => match fields with [] => false | _ => true end
  end.

(** [a or b] *)
Definition py_or (a b : json) : json := if truthy a then a else b.

Fixpoint lookup (k : string) (fields : list (string * json)) : option json :=
  match fields with
  | [] => None
  | (k', v) :: rest => if (k =? k')%string then Some v else lookup k rest
  end.

(** [o.get(k, default)]: only a dict has the method. *)
Definition get (o : json) (k : string) (default : json) : result json :=
  match o with
  | JObj fields =>
      Ok (match lookup k fields with Some v => v | None => default end)
  | _ => Raise AttributeError
  end.

Fixpoint chars (s : string) : list json :=
  match s with
  | EmptyString => []
  | String c rest => JStr (String c EmptyString) :: chars rest
  end.

(** [for x in v]: a list yields its items, a dict its keys, a string
    its characters; nothing else is iterable. *)
Definition iter (v : json) : result (list json) :=
  match v with
  | JArr items => Ok items
  | JObj fields => Ok (map (fun kv => JStr (fst kv)) fields)
  | JStr s => Ok (chars s)
  | _ => Raise TypeError
  end.

(** White space as [str.isspace] sees it, read on the UTF-8 encoding of
    the string: one byte for U+0009-000D, U+001C-001F and U+0020, two
    bytes for U+0085 and U+00A0, three bytes for U+1680, U+2000-200A,
    U+2028, U+2029, U+202F, U+205F and U+3000. *)
Definition is_space (c : ascii) : bool :=
  let n := N_of_ascii c in
  ((9 <=? n) && (n <=? 13) || (28 <=? n) && (n <=? 32))%N.

Definition is_space2 (c1 c2 : ascii) : bool :=
  let a := N_of_ascii c1 in
  let b := N_of_ascii c2 in
  ((a =? 194) && ((b =? 133) || (b =? 160)))%N.

Definition is_space3 (c1 c2 c3 : ascii) : bool :=
  let a := N_of_ascii c1 in
  let b := N_of_ascii c2 in
  let c := N_of_ascii c3 in
  ((a =? 225) && (b =? 154) && (c =? 128)
   || (a =? 226) && (b =? 128)
      && ((128 <=? c) && (c <=? 138) || (c =? 168) || (c =? 169) || (c =? 175))
   || (a =? 226) && (b =? 129) && (c =? 159)
   || (a =? 227) && (b =? 128) && (c =? 128))%N.

(** [s.lstrip()]: white-space characters are taken off the front, one
    character of one, two or three bytes at a time. *)
Fixpoint lstrip (s : string) : string :=
  match s with
  | EmptyString => EmptyString
  | String c1 r1 =>
      if is_space c1 then lstrip r1
      else
        match r1 with
        | EmptyString => s
        | String c2 r2 =>
            if is_space2 c1 c2 then lstrip r2
            else
              match r2 with
              | EmptyString => s
              | String c3 r3 => if is_space3 c1 c2 c3 then lstrip r3 else s
              end
        end
  end.

(** The same from the end, on the bytes in reverse order. *)
Fixpoint lstrip_reversed (s : list ascii) : list ascii :=
  match s with
  | [] => []
  | c1 :: r1 =>
      if is_space c1 then lstrip_reversed r1
      else
        match r1 with
        | [] => s
        | c2 :: r2 =>
            if is_space2 c2 c1 then lstrip_reversed r2
            else
              match r2 with
              | [] => s
              | c3 :: r3 =>
                  if is_space3 c3 c2 c1 then lstrip_reversed r3 else s
              end
        end
  end.

Definition rstrip (s : string) : string :=
  string_of_list_ascii
    (rev (lstrip_reversed (rev (list_ascii_of_string s)))).

(** [s.strip()] *)
Definition strip (s : string) : string := rstrip (lstrip s).

(** [str(n)] for an integer. *)
Definition str_of_int (n : Z) : string := NilZero.string_of_int (Z.to_int n).

End Py.

Export Py.

Declare Scope py_scope.
Notation "x <- c ;; k" := (bind c (fun x => k))
  (at level 61, c at next level, right associativity) : py_scope.
Local Open Scope py_scope.

(** ** pandas: frames, grouping, joining, sorting *)

Module Pandas.

Record DataFrame (R : Type) : Type := mkFrame {
  columns : list string;
  rows : list R
}.
Arguments mkFrame {R} columns rows.
Arguments columns {R} d.
Arguments rows {R} d.

(** [pd.DataFrame(records)] for a list of dicts that all carry the keys
    [keys]: the columns come from the records, so no record, no column. *)
Definition from_records {R : Type} (keys : list string) (records : list R)
  : DataFrame R :=
  mkFrame (match records with [] => [] | _ :: _ => keys end) records.

(** [df.empty] *)
Definition empty {R : Type} (df : DataFrame R) : bool :=
  match columns df, rows df with
  | _ :: _, _ :: _ => false
  | _, _ => true
  end.

Definition has_column {R : Type} (df : DataFrame R) (name : string) : bool :=
  existsb (String.eqb name) (columns df).

(** [df[name]]: the cells of a column, or [KeyError]. *)
Definition column {R C : Type} (df : DataFrame R) (name : string)
  (cell : R -> C) : result (list C) :=
  if has_column df name then Ok (map cell (rows df))
  else Raise (KeyError name).

Definition select {R : Type} (l : list R) (mask : list bool) : list R :=
  map fst (filter snd (combine l mask)).

(** [df[mask]] with a boolean mask: the rows kept stay in order. *)
Definition boolean_index {R : Type} (df : DataFrame R) (mask : list bool)
  : DataFrame R :=
  mkFrame (columns df) (select (rows df) mask).

(** An object cell that holds a [str] or is missing ([None]/[NaN]). *)
Definition cell : Type := option string.

Definition notna {A : Type} (c : option A) : bool :=
  match c with Some _ => true | None => false end.

Definition fillna {A : Type} (d : A) (c : option A) : A :=
  match c with Some x => x | None => d end.

Definition cell_eqb (a b : cell) : bool :=
  match a, b with
  | Some x, Some y => (x =? y)%string
  | None, None => true
  | _, _ => false
  end.

(** [cell == s] against a string literal. *)
Definition eq_str (s : string) (c : cell) : bool := cell_eqb c (Some s).

(** Order of group keys; a missing key sorts last. *)
Definition cell_leb (a b : cell) : bool :=
  match a, b with
  | Some x, Some y => (x <=? y)%string
  | Some _, None => true
  | None, Some _ => false
  | None, None => true
  end.

(** [unique]: the distinct values in order of first appearance. *)
Fixpoint unique (l : list cell) : list cell :=
  match l with
  | [] => []
  | x :: t => x :: filter (fun y => negb (cell_eqb y x)) (unique t)
  end.

Fixpoint insert_key (k : cell) (l : list cell) : list cell :=
  match l with
  | [] => [k]
  | h :: t => if cell_leb k h then k :: l else h :: insert_key k t
  end.

Definition sort_keys (l : list cell) : list cell := fold_right insert_key [] l.

Definition count (k : cell) (col : list cell) : Z :=
  Z.of_nat (List.length (filter (cell_eqb k) col)).

(** A [Series] of counts indexed by group key. *)
Definition Series : Type := list (cell * Z).

(** The sizes of the groups of a key column, with the defaults
    [sort=True], [dropna=True]: one entry per distinct non-missing key,
    keys ascending. *)
Definition group_sizes (col : list cell) : Series :=
  map (fun k => (k, count k col)) (sort_keys (unique (filter notna col))).

(** [df.groupby(name).size()] *)
Definition groupby_size {R : Type} (df : DataFrame R) (name : string)
  (key : R -> cell) : result Series :=
  col <- column df name key ;;
  Ok (group_sizes col).

Fixpoint series_get (k : cell) (s : Series) : option Z :=
  match s with
  | [] => None
  | (k', n) :: rest => if cell_eqb k k' then Some n else series_get k rest
  end.

Definition mem (k : cell) (l : list cell) : bool := existsb (cell_eqb k) l.

(** Index of [pd.concat(series, axis=1)] (outer join, [sort=False]): the
    labels of the first series, then the labels only the others have, in
    order of appearance. *)
Definition union_index (indexes : list (list cell)) : list cell :=
  match indexes with
  | [] => []
  | first :: others =>
      let result := unique first in
      result ++ unique (filter (fun k => negb (mem k result)) (List.concat others))
  end.

(** [rows.take(indexer)] *)
Definition take {R : Type} (l : list R) (indexer : list nat) : list R :=
  flat_map (fun i => match nth_error l i with Some r => [r] | None => [] end)
           indexer.

Definition descending (ks : list Z) : Prop := StronglySorted Z.ge ks.

(** [sort_values(key, ascending=False)] on an integer column.  The program
    asks for pandas' default [kind="quicksort"], whose contract is the
    order of the keys and nothing about rows with equal keys; the
    algorithm behind it is numpy's choice.  The interface below is that
    contract: the indexer is a permutation of the positions and the keys
    it picks are non-increasing. *)
Class SortValues : Type := {
  argsort_desc : list Z -> list nat;
  argsort_perm : forall ks, Permutation (argsort_desc ks) (seq 0 (List.length ks));
  argsort_sorted : forall ks,
      descending (map (fun i => nth i ks 0) (argsort_desc ks))
}.

Definition sort_values_desc `{SortValues} {R : Type} (key : R -> Z)
  (l : list R) : list R :=
  take l (argsort_desc (map key l)).

(** Two lawful sorts: insertion from the right, placing a key before the
    first key that is not larger ([strict = false], ties keep their order)
    or before the first key that is smaller ([strict = true], ties end up
    reversed). *)
Fixpoint insert_desc (strict : bool) (x : nat * Z) (l : list (nat * Z))
  : list (nat * Z) :=
  match l with
  | [] => [x]
  | y :: t =>
      if (if strict then snd y <? snd x else snd y <=? snd x)
      then x :: l
      else y :: insert_desc strict x t
  end.

Definition insertion_argsort (strict : bool) (ks : list Z) : list nat :=
  map fst (fold_right (insert_desc strict) [] (combine (seq 0 (List.length ks)) ks)).

End Pandas.

Export Pandas.

(** ** The correlation and scoring engine: [analyze], [simulate_response] *)

(** A row of the event frame, as [load_suricata_events] lays it out and
    typed as the data model has it: strings or nothing, an integer
    severity or nothing. *)
Module Event.

Record t : Type := mk {
  timestamp : option string;
  event_type : cell;
  src_ip : cell;
  dest_ip : cell;
  severity : option Z;
  signature : cell;
  dns_rrname : cell
}.

Definition keys : list string :=
  ["timestamp"; "event_type"; "src_ip"; "dest_ip"; "severity"; "signature";
   "dns_rrname"].

End Event.

(** A vulnerability record; [cvss] is the cell of the frame built from
    the records, missing when the record has no usable number. *)
Module Vuln.

Record t : Type := mk {
  id : string;
  title : string;
  cvss : option float;
  published : option string;
  references : list string
}.

Definition keys : list string :=
  ["id"; "title"; "cvss"; "published"; "references"].

End Vuln.

(** One entry of the list [simulate_response] returns. *)
Module Action.

Record t : Type := mk {
  src_ip : cell;
  risk_score : Z;
  simulated_block : bool;
  notification : string
}.

End Action.

Module Engine.

Definition CVSS_THRESHOLD : float := 8.0%float.
Definition DNS_SPIKE_THRESHOLD : Z := 6.

(** One row of [suspicious]. *)
Record StatRow : Type := mkStat {
  src_ip : cell;
  alert_count : Z;
  high_severity_alert_count : Z;
  dns_query_count : Z;
  risk_score : Z
}.

Record Stats : Type := mkStats {
  total_vulns : Z;
  high_cvss_count : Z;
  suricata_events : Z;
  alert_events : Z;
  dns_events : Z;
  threat_ips : Z
}.

Record Analysis : Type := mkAnalysis {
  vulns_df : list (Vuln.t * float);
  high_cvss : list (Vuln.t * float);
  alerts_df : DataFrame Event.t;
  suspicious : list StatRow;
  threats : list StatRow;
  stats : Stats
}.

(** [pd.to_numeric(col, errors="coerce").fillna(0.0)] on one cell. *)
Definition to_numeric (c : option float) : float :=
  match c with Some x => x | None => nan end.

Definition fillna_float (d x : float) : float :=
  if PrimFloat.is_nan x then d else x.

(** The outer join of the three count series, [fillna(0)],
    [reset_index()] and [astype(int)]; then the [risk_score] column. *)
Definition stat_row (alert_counts high_severity_counts dns_counts : Series)
  (k : cell) : StatRow :=
  let a := fillna 0 (series_get k alert_counts) in
  let h := fillna 0 (series_get k high_severity_counts) in
  let d := fillna 0 (series_get k dns_counts) in
  mkStat k a h d (h * 5 + a * 2 + Z.b2z (d >=? DNS_SPIKE_THRESHOLD) * 3).

Definition joined (alert_counts high_severity_counts dns_counts : Series)
  : list StatRow :=
  map (stat_row alert_counts high_severity_counts dns_counts)
      (union_index [map fst alert_counts; map fst high_severity_counts;
                    map fst dns_counts]).

Section Analyze.

Context {sorter : SortValues}.

Definition analyze (vulns : list Vuln.t) (suricata_df : DataFrame Event.t)
  : result Analysis :=
  let vulns_df := from_records Vuln.keys vulns in
  let cvss :=
    if has_column vulns_df "cvss" then map Vuln.cvss (rows vulns_df)
    else map (fun _ => Some 0%float) (rows vulns_df) in
  let cvss := map (fun c => fillna_float 0%float (to_numeric c)) cvss in
  let vulns_df := combine (rows vulns_df) cvss in
  let high_cvss :=
    select vulns_df (map (fun v => PrimFloat.leb CVSS_THRESHOLD (snd v)) vulns_df) in
  kind <- column suricata_df "event_type" Event.event_type ;;
  let alerts_df := boolean_index suricata_df (map (eq_str "alert") kind) in
  kind <- column suricata_df "event_type" Event.event_type ;;
  let dns_df := boolean_index suricata_df (map (eq_str "dns") kind) in
  alert_counts <- groupby_size alerts_df "src_ip" Event.src_ip ;;
  sev <- column alerts_df "severity" Event.severity ;;
  high_severity_counts <-
    groupby_size (boolean_index alerts_df (map (fun s => fillna 99 s <=? 2) sev))
                 "src_ip" Event.src_ip ;;
  dns_counts <- groupby_size dns_df "src_ip" Event.src_ip ;;
  let suspicious := joined alert_counts high_severity_counts dns_counts in
  let suspicious := sort_values_desc risk_score suspicious in
  let threats := select suspicious (map (fun r => risk_score r >=? 5) suspicious) in
  Ok (mkAnalysis vulns_df high_cvss alerts_df suspicious threats
        (mkStats (Z.of_nat (List.length vulns_df))
                 (Z.of_nat (List.length high_cvss))
                 (Z.of_nat (List.length (rows suricata_df)))
                 (Z.of_nat (List.length (rows alerts_df)))
                 (Z.of_nat (List.length (rows dns_df)))
                 (Z.of_nat (List.length threats)))).

End Analyze.

(** [f"{src_ip}"] *)
Definition str_of_cell (c : cell) : string := fillna "None" c.

Definition notify_msg (src : cell) (score : Z) : string :=
  "[ALERT] Threat detected from " ++ str_of_cell src ++ ". Risk score="
    ++ str_of_int score ++ ".".

Definition simulate_response (threats_df : list StatRow) : list Action.t :=
  match threats_df with
  | [] => []
  | _ :: _ =>
      map (fun row =>
             let src := src_ip row in
             let score := risk_score row in
             Action.mk src score true (notify_msg src score))
          threats_df
  end.

End Engine.

(** ** The event normalizer: [load_suricata_events] *)

Module Suricata.

(** A line of the opened event file, by what [line.strip()] and
    [json.loads] make of it: nothing left, text that is not JSON
    ([JSONDecodeError]), or a JSON value.  Text on which [json.loads]
    raises something else (an integer of more digits than the
    interpreter converts) is not a [Line]. *)
Inductive Line : Type :=
| Blank
| NotJson
| Doc (evt : json).

(** One dict of [rows]; every cell is whatever the event carried.  The
    frame is given the same rows: the dtype of its columns is not
    modelled. *)
Record Row : Type := mk {
  timestamp : json;
  event_type : json;
  src_ip : json;
  dest_ip : json;
  severity : json;
  signature : json;
  dns_rrname : json
}.

Definition row_of (evt : json) : result Row :=
  timestamp <- get evt "timestamp" JNull ;;
  event_type <- get evt "event_type" JNull ;;
  src_ip <- get evt "src_ip" JNull ;;
  dest_ip <- get evt "dest_ip" JNull ;;
  alert <- get evt "alert" JNull ;;
  severity <- get (py_or alert (JObj [])) "severity" JNull ;;
  alert <- get evt "alert" JNull ;;
  signature <- get (py_or alert (JObj [])) "signature" JNull ;;
  dns <- get evt "dns" JNull ;;
  dns_rrname <- get (py_or dns (JObj [])) "rrname" JNull ;;
  Ok (mk timestamp event_type src_ip dest_ip severity signature dns_rrname).

(** The loop over the lines of the file; [rows] is the list built so
    far. *)
Fixpoint read_lines (f : list Line) (rows : list Row) : result (list Row) :=
  match f with
  | [] => Ok rows
  | line :: rest =>
      match line with
      | Blank => read_lines rest rows
      | NotJson => Raise JSONDecodeError
      | Doc evt => row <- row_of evt ;; read_lines rest (rows ++ [row])
      end
  end.

Section Load.

(** [pd.to_datetime(..., errors="coerce", utc=True)] as it acts on one
    cell of the column: a timestamp, or the missing value for what does
    not read as one. *)
Variable to_datetime : json -> json.

Definition set_timestamp (r : Row) (t : json) : Row :=
  mk t (event_type r) (src_ip r) (dest_ip r) (severity r) (signature r)
     (dns_rrname r).

Definition load_suricata_events (f : list Line) : result (DataFrame Row) :=
  rows <- read_lines f [] ;;
  let df := from_records Event.keys rows in
  if negb (empty df) then
    stamps <- column df "timestamp" timestamp ;;
    Ok (mkFrame (columns df)
          (map (fun rt => set_timestamp (fst rt) (snd rt))
               (combine (Pandas.rows df) (map to_datetime stamps))))
  else Ok df.

End Load.

End Suricata.

(** ** The vulnerability normalizer: [fetch_vulners_data] *)

Module Vulners.

(** What the outside world answers to one call. *)
Record Response : Type := mkResponse {
  raise_for_status : result unit;
  json_body : result json
}.

Record World : Type := mkWorld {
  VULNERS_API_KEY : option string;
  requests_get : string -> result Response;
  fallback_file : result json
}.

Section Fetch.

(** [float(s)] on a string: [None] stands for [ValueError]. *)
Variable float_of_str : string -> option float.

(** [float(v)] *)
Definition py_float (v : json) : result float :=
  match v with
  | JFloat x => Ok x
  | JInt n =>
      match binary_normalize prec emax n 0 false with
      | S754_infinity _ => Raise OverflowError
      | x => Ok (SF2Prim x)
      end
  | JBool b => Ok (if b then 1%float else 0%float)
  | JStr s =>
      match float_of_str s with
      | Some x => Ok x
      | None => Raise ValueError
      end
  | JNull | JArr _ | JObj _ => Raise TypeError
  end.

(** The body of [for doc in docs]: the dict appended to [vulns]. *)
Definition parse_doc (doc : json) : result json :=
  c <- get doc "cvss" (JObj []) ;;
  let cvss := py_or c (JObj []) in
  score <- get cvss "score" JNull ;;
  score <-
    (if is_None score then
       c3 <- get doc "cvss3" (JObj []) ;;
       v3 <- get c3 "cvssV3" (JObj []) ;;
       get v3 "baseScore" JNull
     else Ok score) ;;
  id <- get doc "id" (JStr "unknown") ;;
  title <- get doc "title" (JStr "") ;;
  value <- (if is_None score then Ok 0%float else py_float score) ;;
  published <- get doc "published" JNull ;;
  published <-
    (if truthy published then Ok published else get doc "lastseen" JNull) ;;
  href <- get doc "href" JNull ;;
  references <-
    (if truthy href then h <- get doc "href" JNull ;; Ok [h] else Ok []) ;;
  Ok (JObj [("id", id); ("title", title); ("cvss", JFloat value);
            ("published", published); ("references", JArr references)]).

(** The request and the way down to the documents of the payload. *)
Definition remote_docs (w : World) (api_key : string) : result (list json) :=
  response <- requests_get w api_key ;;
  _ <- raise_for_status response ;;
  payload <- json_body response ;;
  data <- get payload "data" (JObj []) ;;
  docs <- get data "search" (JArr []) ;;
  iter docs.

(** The body of the [try] block up to [if vulns:]. *)
Definition remote_vulns (w : World) (api_key : string) : result (list json) :=
  docs <- remote_docs w api_key ;;
  for_each parse_doc docs.

Definition api_key (w : World) : string :=
  strip (fillna "" (VULNERS_API_KEY w)).

Definition fetch_vulners_data (w : World) : result (json * string) :=
  let from_api :=
    if negb (api_key w =? "")%string then
      match remote_vulns w (api_key w) with
      | Ok (v :: vs) => Some (v :: vs)
      | Ok [] => None
      | Raise _ => None
      end
    else None in
  match from_api with
  | Some vulns => Ok (JArr vulns, "vulners_api")
  | None =>
      local_data <- fallback_file w ;;
      Ok (local_data, "local_vulners_sample")
  end.

End Fetch.

End Vulners.

(** ** Facts about the pandas operations *)

Module PandasFacts.

Lemma cell_eqb_spec (a b : cell) : reflect (a = b) (cell_eqb a b).
Proof.
  destruct a as [x|], b as [y|]; simpl; try (constructor; congruence).
  destruct (String.eqb_spec x y); constructor; congruence.
Qed.

Lemma cell_eqb_refl (a : cell) : cell_eqb a a = true.
Proof. destruct (cell_eqb_spec a a); congruence. Qed.

Lemma cell_eqb_sym (a b : cell) : cell_eqb a b = cell_eqb b a.
Proof.
  destruct (cell_eqb_spec a b), (cell_eqb_spec b a); congruence.
Qed.

Lemma mem_In (k : cell) (l : list cell) : mem k l = true <-> In k l.
Proof.
  unfold mem. rewrite existsb_exists. split.
  - intros (x & Hx & E). destruct (cell_eqb_spec k x); congruence.
  - intros H. exists k. split; [assumption | apply cell_eqb_refl].
Qed.

Lemma select_filter {R : Type} (f : R -> bool) (l : list R) :
  select l (map f l) = filter f l.
Proof.
  unfold select. induction l as [|x l IH]; simpl; [reflexivity|].
  destruct (f x); simpl; rewrite IH; reflexivity.
Qed.

Lemma unique_In (x : cell) (l : list cell) : In x (unique l) <-> In x l.
Proof.
  induction l as [|y l IH]; simpl; [tauto|].
  rewrite filter_In, IH. split.
  - intros [E | [H _]]; auto.
  - intros [E | H]; auto.
    destruct (cell_eqb_spec x y) as [E | N]; [left; congruence|].
    right. split; [assumption | reflexivity].
Qed.

Lemma unique_NoDup (l : list cell) : NoDup (unique l).
Proof.
  induction l as [|y l IH]; simpl; constructor.
  - rewrite filter_In. intros [_ H]. rewrite cell_eqb_refl in H. discriminate.
  - apply NoDup_filter. assumption.
Qed.

Lemma insert_key_perm (k : cell) (l : list cell) :
  Permutation (insert_key k l) (k :: l).
Proof.
  induction l as [|h t IH]; simpl; [reflexivity|].
  destruct (cell_leb k h); [reflexivity|].
  rewrite IH. apply perm_swap.
Qed.

Lemma sort_keys_perm (l : list cell) : Permutation (sort_keys l) l.
Proof.
  induction l as [|h t IH]; simpl; [reflexivity|].
  rewrite insert_key_perm. constructor. assumption.
Qed.

Lemma sort_keys_In (x : cell) (l : list cell) : In x (sort_keys l) <-> In x l.
Proof.
  split; apply Permutation_in;
    [apply sort_keys_perm | symmetry; apply sort_keys_perm].
Qed.

(** The entry of a series built over a list of keys. *)
Lemma series_get_map (f : cell -> Z) (keys : list cell) (k : cell) :
  series_get k (map (fun k' => (k', f k')) keys)
  = if mem k keys then Some (f k) else None.
Proof.
  induction keys as [|h t IH]; simpl; [reflexivity|].
  destruct (cell_eqb_spec k h) as [-> | N]; simpl; [reflexivity | exact IH].
Qed.

Lemma count_nonneg (k : cell) (col : list cell) : 0 <= count k col.
Proof. unfold count. lia. Qed.

Lemma count_zero_notin (k : cell) (col : list cell) :
  ~ In k col -> count k col = 0.
Proof.
  intros H. unfold count.
  replace (filter (cell_eqb k) col) with (@nil cell); [reflexivity|].
  symmetry. induction col as [|h t IH]; simpl; [reflexivity|].
  destruct (cell_eqb_spec k h) as [-> | N].
  - exfalso. apply H. left. reflexivity.
  - apply IH. intros Hin. apply H. right. assumption.
Qed.

Lemma count_map {R : Type} (key : R -> cell) (k : cell) (l : list R) :
  count k (map key l)
  = Z.of_nat (List.length (filter (fun r => cell_eqb k (key r)) l)).
Proof.
  unfold count. f_equal.
  induction l as [|h t IH]; simpl; [reflexivity|].
  destruct (cell_eqb k (key h)); simpl; rewrite IH; reflexivity.
Qed.

(** What the group sizes hold for a key, filled with 0 where the key has
    no group. *)
Lemma group_sizes_get (col : list cell) (k : string) :
  fillna 0 (series_get (Some k) (group_sizes col)) = count (Some k) col.
Proof.
  unfold group_sizes.
  rewrite (series_get_map (fun k' => count k' col)).
  destruct (mem (Some k) _) eqn:M; simpl; [reflexivity|].
  symmetry. apply count_zero_notin. intros Hin.
  assert (mem (Some k) (sort_keys (unique (filter notna col))) = true)
    as M'; [|congruence].
  apply mem_In, sort_keys_In, unique_In, filter_In. split; [assumption | reflexivity].
Qed.

Lemma group_sizes_index (col : list cell) (k : cell) :
  In k (map fst (group_sizes col)) <-> In k col /\ notna k = true.
Proof.
  unfold group_sizes. rewrite map_map. simpl. rewrite map_id.
  rewrite sort_keys_In, unique_In, filter_In. tauto.
Qed.

Lemma union_index_In (a b c : list cell) (k : cell) :
  In k (union_index [a; b; c]) <-> In k a \/ In k b \/ In k c.
Proof.
  unfold union_index. simpl. rewrite app_nil_r.
  rewrite in_app_iff, !unique_In, filter_In, in_app_iff.
  destruct (mem k (unique a)) eqn:M.
  - apply mem_In in M. rewrite unique_In in M. simpl. split; [|tauto].
    intros [H | [_ H]]; [tauto | discriminate].
  - simpl. split; [tauto|]. intros [H | H]; [tauto | right; split; [tauto | reflexivity]].
Qed.

(** *** Taking rows by an indexer *)

Lemma take_cons {R : Type} (x : R) (l : list R) (idx : list nat) :
  take (x :: l) (map S idx) = take l idx.
Proof.
  unfold take. induction idx as [|i idx IH]; simpl; [reflexivity|].
  rewrite IH. reflexivity.
Qed.

Lemma take_seq {R : Type} (l : list R) : take l (seq 0 (List.length l)) = l.
Proof.
  induction l as [|x l IH]; [reflexivity|].
  cbn [List.length seq]. rewrite <- seq_shift.
  change (take (x :: l) (0%nat :: map S (seq 0 (List.length l))))
    with (x :: take (x :: l) (map S (seq 0 (List.length l)))).
  rewrite take_cons, IH. reflexivity.
Qed.

Lemma take_perm {R : Type} (l : list R) (idx : list nat) :
  Permutation idx (seq 0 (List.length l)) -> Permutation (take l idx) l.
Proof.
  intros H. rewrite <- (take_seq l) at 2.
  unfold take. apply Permutation_flat_map. assumption.
Qed.

Lemma map_take {R : Type} (key : R -> Z) (l : list R) (idx : list nat) :
  Forall (fun i => (i < List.length l)%nat) idx ->
  map key (take l idx) = map (fun i => nth i (map key l) 0) idx.
Proof.
  unfold take. induction 1 as [|i idx Hi _ IH]; simpl; [reflexivity|].
  rewrite map_app, IH. f_equal.
  destruct (nth_error l i) as [r|] eqn:E.
  - simpl. f_equal. symmetry.
    apply nth_error_nth. rewrite nth_error_map, E. reflexivity.
  - apply nth_error_None in E. lia.
Qed.

Section SortValuesFacts.

Context {sorter : SortValues}.
Context {R : Type} (key : R -> Z).

Lemma argsort_bounds (ks : list Z) :
  Forall (fun i => (i < List.length ks)%nat) (argsort_desc ks).
Proof.
  apply Forall_forall. intros i Hi.
  apply (Permutation_in _ (argsort_perm ks)) in Hi.
  apply in_seq in Hi. lia.
Qed.

Lemma sort_values_perm (l : list R) : Permutation (sort_values_desc key l) l.
Proof.
  unfold sort_values_desc. apply take_perm.
  rewrite <- (length_map key l). apply argsort_perm.
Qed.

Lemma sort_values_In (l : list R) (r : R) :
  In r (sort_values_desc key l) <-> In r l.
Proof.
  split; apply Permutation_in;
    [apply sort_values_perm | symmetry; apply sort_values_perm].
Qed.

Lemma sort_values_sorted (l : list R) :
  descending (map key (sort_values_desc key l)).
Proof.
  unfold sort_values_desc. rewrite map_take.
  - apply argsort_sorted.
  - rewrite <- (length_map key l). apply argsort_bounds.
Qed.

End SortValuesFacts.

(** *** The two insertion sorts meet the contract *)

Definition key_ge (a b : nat * Z) : Prop := snd a >= snd b.

Lemma insert_desc_perm (strict : bool) (x : nat * Z) (l : list (nat * Z)) :
  Permutation (insert_desc strict x l) (x :: l).
Proof.
  induction l as [|y t IH]; simpl; [reflexivity|].
  destruct (if strict then snd y <? snd x else snd y <=? snd x); [reflexivity|].
  rewrite IH. apply perm_swap.
Qed.

Lemma insert_desc_sorted (strict : bool) (x : nat * Z) (l : list (nat * Z)) :
  StronglySorted key_ge l -> StronglySorted key_ge (insert_desc strict x l).
Proof.
  induction 1 as [|y t Ht IH Hy]; simpl; [repeat constructor|].
  destruct (if strict then snd y <? snd x else snd y <=? snd x) eqn:C.
  - assert (snd x >= snd y) as Hxy by (destruct strict; lia).
    constructor; [constructor; assumption|].
    constructor; [exact Hxy|].
    eapply Forall_impl; [|exact Hy]. unfold key_ge. intros; lia.
  - assert (snd y >= snd x) as Hyx by (destruct strict; lia).
    constructor; [assumption|].
    apply Forall_forall. intros z Hz.
    apply (Permutation_in _ (insert_desc_perm strict x t)) in Hz.
    destruct Hz as [<- | Hz]; [exact Hyx|].
    rewrite Forall_forall in Hy. apply Hy. assumption.
Qed.

Definition paired (strict : bool) (ks : list Z) : list (nat * Z) :=
  fold_right (insert_desc strict) [] (combine (seq 0 (List.length ks)) ks).

Lemma paired_perm (strict : bool) (ks : list Z) :
  Permutation (paired strict ks) (combine (seq 0 (List.length ks)) ks).
Proof.
  unfold paired. induction (combine (seq 0 (List.length ks)) ks) as [|p l IH];
    simpl; [reflexivity|].
  rewrite insert_desc_perm. constructor. assumption.
Qed.

Lemma paired_sorted (strict : bool) (ks : list Z) :
  StronglySorted key_ge (paired strict ks).
Proof.
  unfold paired. induction (combine (seq 0 (List.length ks)) ks) as [|p l IH];
    simpl; [constructor|].
  apply insert_desc_sorted. assumption.
Qed.

Lemma combine_seq_nth (ks : list Z) (start : nat) (p : nat * Z) :
  In p (combine (seq start (List.length ks)) ks) ->
  nth (fst p - start) ks 0 = snd p /\ (start <= fst p)%nat.
Proof.
  revert start. induction ks as [|k ks IH]; simpl; [tauto|].
  intros start [<- | H]; simpl.
  - rewrite Nat.sub_diag. split; [reflexivity | lia].
  - apply IH in H. destruct H as [H1 H2].
    replace (fst p - start)%nat with (S (fst p - S start)) by lia.
    split; [exact H1 | lia].
Qed.

Lemma map_fst_combine {A B : Type} (l : list A) (l' : list B) :
  List.length l = List.length l' -> map fst (combine l l') = l.
Proof.
  revert l'. induction l as [|x l IH]; intros [|y l']; simpl;
    try reflexivity; try discriminate.
  intros E. f_equal. apply IH. congruence.
Qed.

Lemma insertion_argsort_perm (strict : bool) (ks : list Z) :
  Permutation (insertion_argsort strict ks) (seq 0 (List.length ks)).
Proof.
  unfold insertion_argsort. fold (paired strict ks).
  rewrite (paired_perm strict ks).
  replace (map fst (combine (seq 0 (List.length ks)) ks))
    with (seq 0 (List.length ks)); [reflexivity|].
  symmetry. apply map_fst_combine. apply length_seq.
Qed.

Lemma insertion_argsort_sorted (strict : bool) (ks : list Z) :
  descending (map (fun i => nth i ks 0) (insertion_argsort strict ks)).
Proof.
  unfold insertion_argsort, descending. fold (paired strict ks).
  rewrite map_map.
  assert (Forall (fun p => In p (combine (seq 0 (List.length ks)) ks))
                 (paired strict ks)) as Hin.
  { apply Forall_forall. intros p.
    apply Permutation_in, paired_perm. }
  pose proof (paired_sorted strict ks) as Hs.
  induction Hs as [|p l Hl IH Hp]; simpl; [constructor|].
  apply Forall_cons_iff in Hin. destruct Hin as [Hp0 Hin].
  constructor; [apply IH; assumption|].
  apply Forall_map, Forall_forall. intros q Hq.
  rewrite Forall_forall in Hp, Hin.
  destruct (combine_seq_nth ks 0 p Hp0) as [Ep _].
  destruct (combine_seq_nth ks 0 q (Hin q Hq)) as [Eq _].
  rewrite Nat.sub_0_r in Ep, Eq. rewrite Ep, Eq. apply Hp. assumption.
Qed.

End PandasFacts.

Export PandasFacts.

(** A sort that keeps rows with equal keys in their order: what numpy's
    insertion sort does on short arrays, after pandas' reversal trick for
    [ascending=False]. *)
Definition stable_sort : SortValues :=
  {| argsort_desc := insertion_argsort false;
     argsort_perm := insertion_argsort_perm false;
     argsort_sorted := insertion_argsort_sorted false |}.

(** A sort that meets the same contract and reverses rows with equal
    keys. *)
Definition reversing_sort : SortValues :=
  {| argsort_desc := insertion_argsort true;
     argsort_perm := insertion_argsort_perm true;
     argsort_sorted := insertion_argsort_sorted true |}.

(** ** Facts about [analyze] *)

Module EngineFacts.

Import Engine.

(** The three event subsets the counts are taken from. *)
Definition is_alert (e : Event.t) : bool := eq_str "alert" (Event.event_type e).
Definition is_dns (e : Event.t) : bool := eq_str "dns" (Event.event_type e).
Definition is_high (e : Event.t) : bool := fillna 99 (Event.severity e) <=? 2.

Definition alerts_of (events : list Event.t) : list Event.t :=
  filter is_alert events.
Definition high_of (events : list Event.t) : list Event.t :=
  filter is_high (alerts_of events).
Definition dns_of (events : list Event.t) : list Event.t :=
  filter is_dns events.

(** The statistics table before it is sorted. *)
Definition grouped (events : list Event.t) : list StatRow :=
  joined (group_sizes (map Event.src_ip (alerts_of events)))
         (group_sizes (map Event.src_ip (high_of events)))
         (group_sizes (map Event.src_ip (dns_of events))).

Definition has_event_columns (df : DataFrame Event.t) : Prop :=
  has_column df "event_type" = true /\ has_column df "src_ip" = true
  /\ has_column df "severity" = true.

(** Number of events of an address in a subset. *)
Definition from_address (a : string) (e : Event.t) : bool :=
  cell_eqb (Some a) (Event.src_ip e).

Definition events_from (a : string) (events : list Event.t) : Z :=
  Z.of_nat (List.length (filter (from_address a) events)).

(** Every row of the table before sorting: its address is a string met
    in an alert or dns event, and its counts are those of that address. *)
Lemma grouped_row (events : list Event.t) (r : StatRow) :
  In r (grouped events) ->
  exists a : string,
    src_ip r = Some a
    /\ (In (Some a) (map Event.src_ip (alerts_of events))
        \/ In (Some a) (map Event.src_ip (dns_of events)))
    /\ alert_count r = events_from a (alerts_of events)
    /\ high_severity_alert_count r = events_from a (high_of events)
    /\ dns_query_count r = events_from a (dns_of events)
    /\ risk_score r
       = high_severity_alert_count r * 5 + alert_count r * 2
         + Z.b2z (dns_query_count r >=? DNS_SPIKE_THRESHOLD) * 3.
Proof.
  unfold grouped, joined. rewrite in_map_iff. intros (k & <- & Hk).
  apply union_index_In in Hk. rewrite !group_sizes_index in Hk.
  assert (notna k = true
          /\ (In k (map Event.src_ip (alerts_of events))
              \/ In k (map Event.src_ip (dns_of events)))) as [Hn Hin].
  { destruct Hk as [[H ?] | [[H ?] | [H ?]]]; split; auto.
    left. unfold high_of in H. rewrite in_map_iff in *.
    destruct H as (e & E & He). apply filter_In in He. exists e. tauto. }
  destruct k as [a|]; [|discriminate]. exists a.
  unfold stat_row. cbn [src_ip alert_count high_severity_alert_count
                         dns_query_count risk_score].
  rewrite !group_sizes_get, !count_map.
  repeat split; auto.
Qed.

(** Every address met in an alert or dns event has a row. *)
Lemma grouped_covers (events : list Event.t) (a : string) :
  In (Some a) (map Event.src_ip (alerts_of events))
  \/ In (Some a) (map Event.src_ip (dns_of events)) ->
  exists r, In r (grouped events) /\ src_ip r = Some a.
Proof.
  intros H. unfold grouped, joined.
  eexists. split.
  - apply in_map. apply union_index_In. rewrite !group_sizes_index.
    destruct H as [H | H]; [left | right; right]; split;
      try exact H; reflexivity.
  - reflexivity.
Qed.

Lemma events_from_le (a : string) (p : Event.t -> bool)
  (events : list Event.t) :
  0 <= events_from a (filter p events) <= events_from a events.
Proof.
  unfold events_from. split; [lia|]. apply Nat2Z.inj_le.
  induction events as [|e l IH]; simpl; [lia|].
  destruct (p e); simpl; destruct (from_address a e); simpl; lia.
Qed.

Lemma events_from_bound (a : string) (events : list Event.t) :
  0 <= events_from a events <= Z.of_nat (List.length events).
Proof.
  unfold events_from. split; [lia|]. apply Nat2Z.inj_le. apply filter_length_le.
Qed.

(** Events without a source address take no part in the grouping. *)
Definition has_source (e : Event.t) : bool := notna (Event.src_ip e).

Lemma filter_swap {A : Type} (f g : A -> bool) (l : list A) :
  filter f (filter g l) = filter g (filter f l).
Proof.
  induction l as [|x l IH]; simpl; [reflexivity|].
  destruct (f x) eqn:F, (g x) eqn:G; simpl; rewrite ?F, ?G, IH; reflexivity.
Qed.

Lemma group_sizes_dropna (l : list Event.t) :
  group_sizes (map Event.src_ip (filter has_source l))
  = group_sizes (map Event.src_ip l).
Proof.
  unfold group_sizes.
  assert (filter notna (map Event.src_ip (filter has_source l))
          = filter notna (map Event.src_ip l)) as ->.
  { induction l as [|e l IH]; simpl; [reflexivity|].
    unfold has_source at 1. destruct (Event.src_ip e) eqn:E; simpl.
    - rewrite E. simpl. rewrite IH. reflexivity.
    - exact IH. }
  apply map_ext_in. intros k Hk.
  apply sort_keys_In, unique_In, filter_In in Hk. destruct Hk as [_ Hk].
  destruct k as [a|]; [|discriminate]. f_equal.
  unfold count. do 2 f_equal.
  induction l as [|e l IH]; simpl; [reflexivity|].
  unfold has_source at 1. destruct (Event.src_ip e) eqn:E; simpl.
  - rewrite E, IH. reflexivity.
  - exact IH.
Qed.

Lemma grouped_dropna (events : list Event.t) :
  grouped (filter has_source events) = grouped events.
Proof.
  unfold grouped, high_of, alerts_of, dns_of.
  rewrite (filter_swap is_alert has_source), (filter_swap is_dns has_source).
  rewrite (filter_swap is_high has_source).
  rewrite !group_sizes_dropna. reflexivity.
Qed.

Section Analyze.

Context {sorter : SortValues}.

Lemma sort_values_nil {R : Type} (key : R -> Z) : sort_values_desc key [] = [].
Proof.
  apply Permutation_nil. symmetry. apply sort_values_perm.
Qed.

Lemma analyze_inv (vulns : list Vuln.t) (df : DataFrame Event.t)
  (res : Analysis) :
  analyze vulns df = Ok res ->
  has_event_columns df
  /\ alerts_df res = mkFrame (columns df) (alerts_of (rows df))
  /\ suspicious res = sort_values_desc risk_score (grouped (rows df))
  /\ threats res = filter (fun r => risk_score r >=? 5) (suspicious res).
Proof.
  unfold analyze, groupby_size, column, has_event_columns, boolean_index,
    has_column.
  cbn [columns rows].
  destruct (existsb (String.eqb "event_type") (columns df));
    cbn [bind columns rows]; [|discriminate].
  destruct (existsb (String.eqb "src_ip") (columns df));
    cbn [bind columns rows]; [|discriminate].
  destruct (existsb (String.eqb "severity") (columns df));
    cbn [bind columns rows]; [|discriminate].
  intros E. injection E as <-. cbn [alerts_df suspicious threats].
  rewrite !map_map, !select_filter.
  repeat split; reflexivity.
Qed.

Lemma analyze_returns (vulns : list Vuln.t) (df : DataFrame Event.t) :
  has_event_columns df -> exists res, analyze vulns df = Ok res.
Proof.
  intros (H1 & H2 & H3).
  unfold analyze, groupby_size, column, boolean_index, has_column.
  unfold has_column in H1, H2, H3. cbn [columns rows].
  rewrite H1. cbn [bind columns rows]. rewrite H2. cbn [bind columns rows].
  rewrite H3. cbn [bind columns rows]. eexists. reflexivity.
Qed.

(** The frame built from at least one event has the columns, so
    [analyze] returns on it. *)
Lemma analyze_returns_on_events (vulns : list Vuln.t) (e : Event.t)
  (events : list Event.t) :
  exists res, analyze vulns (from_records Event.keys (e :: events)) = Ok res.
Proof. apply analyze_returns. repeat split. Qed.

Lemma analyze_missing_column (vulns : list Vuln.t) (df : DataFrame Event.t) :
  has_column df "event_type" = false ->
  analyze vulns df = Raise (KeyError "event_type").
Proof.
  intros H. unfold analyze, column. rewrite H. reflexivity.
Qed.

(** A frame that has the columns and no alert or dns event gives empty
    tables. *)
Lemma analyze_no_events (vulns : list Vuln.t) (df : DataFrame Event.t)
  (res : Analysis) :
  analyze vulns df = Ok res ->
  alerts_of (rows df) = [] -> dns_of (rows df) = [] ->
  suspicious res = [] /\ threats res = [].
Proof.
  intros H Ha Hd. apply analyze_inv in H. destruct H as (_ & _ & Hs & Ht).
  assert (suspicious res = []) as E.
  { rewrite Hs. unfold grouped, high_of. rewrite Ha, Hd. simpl.
    apply sort_values_nil. }
  rewrite Ht, E. split; reflexivity.
Qed.

(** With fewer than 2^60 events every number of the table fits int64,
    so the integer columns of pandas hold exactly the values computed
    here. *)
Lemma risk_score_fits_int64 (vulns : list Vuln.t) (df : DataFrame Event.t)
  (res : Analysis) :
  analyze vulns df = Ok res ->
  Z.of_nat (List.length (rows df)) < 2 ^ 60 ->
  Forall (fun r => 0 <= alert_count r < 2 ^ 63
                   /\ 0 <= high_severity_alert_count r < 2 ^ 63
                   /\ 0 <= dns_query_count r < 2 ^ 63
                   /\ 0 <= risk_score r < 2 ^ 63) (suspicious res).
Proof.
  intros H Hn. apply analyze_inv in H. destruct H as (_ & _ & Hs & _).
  apply Forall_forall. intros r Hr. rewrite Hs in Hr.
  apply sort_values_In, grouped_row in Hr.
  destruct Hr as (a & _ & _ & Ea & Eh & Ed & Er).
  pose proof (events_from_le a is_alert (rows df)) as Ba.
  pose proof (events_from_le a is_high (alerts_of (rows df))) as Bh.
  pose proof (events_from_le a is_dns (rows df)) as Bd.
  pose proof (events_from_bound a (rows df)) as Bn.
  fold (alerts_of (rows df)) in Ba. fold (high_of (rows df)) in Bh.
  fold (dns_of (rows df)) in Bd.
  rewrite <- Ea in Ba, Bh. rewrite <- Eh in Bh. rewrite <- Ed in Bd.
  assert (0 <= Z.b2z (dns_query_count r >=? DNS_SPIKE_THRESHOLD) <= 1)
    by (destruct (dns_query_count r >=? DNS_SPIKE_THRESHOLD); simpl; lia).
  change (2 ^ 60) with 1152921504606846976 in Hn.
  change (2 ^ 63) with 9223372036854775808.
  lia.
Qed.

End Analyze.

End EngineFacts.

(** ** Facts about [load_suricata_events] *)

Module SuricataFacts.

Import Suricata.

Definition parses (l : Line) : bool :=
  match l with NotJson => false | _ => true end.

Definition not_blank (l : Line) : bool :=
  match l with Blank => false | _ => true end.




End SuricataFacts.

(** ** Facts about [fetch_vulners_data] *)

Module VulnersFacts.

Import Vulners.

(** A field of an object that is present and not null. *)
Definition field (o : json) (k : string) : option json :=
  match o with
  | JObj fields =>
      match lookup k fields with
      | Some JNull => None
      | found => found
      end
  | _ => None
  end.

(** The primary score field, [doc.cvss.score]. *)
Definition primary_score (doc : json) : option json :=
  match field doc "cvss" with
  | Some c => field c "score"
  | None => None
  end.

(** The nested v3 base score, [doc.cvss3.cvssV3.baseScore]. *)
Definition v3_base_score (doc : json) : option json :=
  match field doc "cvss3" with
  | Some c3 =>
      match field c3 "cvssV3" with
      | Some v3 => field v3 "baseScore"
      | None => None
      end
  | None => None
  end.

(** The score the code settles on before [float]: [JNull] for none. *)
Definition chosen_score (doc : json) : result json :=
  c <- get doc "cvss" (JObj []) ;;
  score <- get (py_or c (JObj [])) "score" JNull ;;
  if is_None score then
    c3 <- get doc "cvss3" (JObj []) ;;
    v3 <- get c3 "cvssV3" (JObj []) ;;
    get v3 "baseScore" JNull
  else Ok score.

Lemma get_null_field (o : json) (k : string) (v : json) :
  get o k JNull = Ok v ->
  field o k = if is_None v then None else Some v.
Proof.
  destruct o; simpl; try discriminate.
  intros E. injection E as E.
  destruct (lookup k fields) as [x|]; subst; [|reflexivity].
  destruct v; reflexivity.
Qed.

(** [(c or {}).get(k)] reads the field of [c] when it returns. *)
Lemma get_or_empty (c : json) (k : string) (v : json) :
  get (py_or c (JObj [])) k JNull = Ok v ->
  field c k = if is_None v then None else Some v.
Proof.
  unfold py_or. destruct (truthy c) eqn:T.
  - apply get_null_field.
  - intros E. injection E as <-.
    destruct c; try reflexivity.
    destruct fields; [reflexivity | discriminate].
Qed.

Lemma primary_score_chosen (doc c v : json) :
  get doc "cvss" (JObj []) = Ok c ->
  get (py_or c (JObj [])) "score" JNull = Ok v ->
  primary_score doc = if is_None v then None else Some v.
Proof.
  intros Ec Ev. apply get_or_empty in Ev. rewrite <- Ev.
  unfold primary_score. destruct doc as [| | | | | |fs]; try discriminate.
  cbn in Ec. injection Ec as Ec. cbn [field].
  destruct (lookup "cvss" fs) as [x|]; subst c; [|reflexivity].
  destruct x; reflexivity.
Qed.

Lemma v3_base_score_chosen (doc c3 v3 v : json) :
  get doc "cvss3" (JObj []) = Ok c3 ->
  get c3 "cvssV3" (JObj []) = Ok v3 ->
  get v3 "baseScore" JNull = Ok v ->
  v3_base_score doc = if is_None v then None else Some v.
Proof.
  intros E3 Ev3 Ev. apply get_null_field in Ev. rewrite <- Ev.
  unfold v3_base_score. destruct doc as [| | | | | |fs]; try discriminate.
  cbn in E3. injection E3 as E3. cbn [field].
  destruct c3 as [| | | | | |f3]; try discriminate.
  cbn in Ev3. injection Ev3 as Ev3.
  destruct (lookup "cvss3" fs) as [x|].
  - subst x. cbn [field].
    destruct (lookup "cvssV3" f3) as [y|]; subst v3; [|reflexivity].
    destruct y; reflexivity.
  - injection E3 as <-. cbn in Ev3. subst v3. reflexivity.
Qed.

(** Which field the chosen score is: the primary one when it is there,
    else the v3 base score, else none. *)
Lemma chosen_score_order (doc s : json) :
  chosen_score doc = Ok s ->
  match primary_score doc with
  | Some p => s = p
  | None =>
      match v3_base_score doc with
      | Some b => s = b
      | None => s = JNull
      end
  end.
Proof.
  unfold chosen_score.
  destruct (get doc "cvss" (JObj [])) as [c|] eqn:Ec; cbn [bind]; [|discriminate].
  destruct (get (py_or c (JObj [])) "score" JNull) as [v|] eqn:Ev;
    cbn [bind]; [|discriminate].
  rewrite (primary_score_chosen doc c v Ec Ev).
  destruct (is_None v) eqn:N.
  - destruct (get doc "cvss3" (JObj [])) as [c3|] eqn:E3; cbn [bind]; [|discriminate].
    destruct (get c3 "cvssV3" (JObj [])) as [v3|] eqn:Ev3; cbn [bind]; [|discriminate].
    intros Es. rewrite (v3_base_score_chosen doc c3 v3 s E3 Ev3 Es).
    destruct s; reflexivity.
  - intros E. injection E as <-. reflexivity.
Qed.

Lemma field_not_null (o : json) (k : string) (v : json) :
  field o k = Some v -> is_None v = false.
Proof.
  destruct o; simpl; try discriminate.
  destruct (lookup k fields) as [x|]; [|discriminate].
  destruct x; intros E; inversion E; reflexivity.
Qed.

Lemma for_each_Forall2 {A B : Type} (body : A -> result B) (items : list A)
  (out : list B) :
  for_each body items = Ok out ->
  Forall2 (fun x y => body x = Ok y) items out.
Proof.
  revert out. induction items as [|x items IH]; simpl; intros out E.
  - injection E as <-. constructor.
  - destruct (body x) as [y|] eqn:Ey; cbn [bind] in E; [|discriminate].
    destruct (for_each body items) as [ys|]; cbn [bind] in E; [|discriminate].
    injection E as <-. constructor; auto.
Qed.

Section Fetch.

Variable float_of_str : string -> option float.

(** The score of a document in the words of the specification: the
    primary score field, else the nested v3 base score, else 0.0. *)
Definition resolved_score (doc : json) : result float :=
  match primary_score doc with
  | Some p => py_float float_of_str p
  | None =>
      match v3_base_score doc with
      | Some b => py_float float_of_str b
      | None => Ok 0%float
      end
  end.

Definition has_score (doc v : json) : Prop :=
  exists x, resolved_score doc = Ok x /\ field v "cvss" = Some (JFloat x).

Lemma resolved_score_chosen (doc s : json) :
  chosen_score doc = Ok s ->
  resolved_score doc
  = if is_None s then Ok 0%float else py_float float_of_str s.
Proof.
  intros H. apply chosen_score_order in H. unfold resolved_score.
  destruct (primary_score doc) as [p|] eqn:P.
  - subst s. unfold primary_score in P.
    destruct (field doc "cvss") as [c|]; [|discriminate].
    rewrite (field_not_null c "score" p P). reflexivity.
  - destruct (v3_base_score doc) as [b|] eqn:V.
    + subst s. unfold v3_base_score in V.
      destruct (field doc "cvss3") as [c3|]; [|discriminate].
      destruct (field c3 "cvssV3") as [v3|]; [|discriminate].
      rewrite (field_not_null v3 "baseScore" b V). reflexivity.
    + subst s. reflexivity.
Qed.

(** One turn of the loop: the record appended carries the resolved
    score. *)
Lemma parse_doc_score (doc v : json) :
  parse_doc float_of_str doc = Ok v -> has_score doc v.
Proof.
  unfold parse_doc, has_score. intros H.
  destruct (chosen_score doc) as [s|e] eqn:C.
  - rewrite (resolved_score_chosen doc s C).
    unfold chosen_score in C.
    destruct (get doc "cvss" (JObj [])) as [c|]; cbn [bind] in *; [|discriminate].
    destruct (get (py_or c (JObj [])) "score" JNull) as [sc|];
      cbn [bind] in *; [|discriminate].
    rewrite C in H. cbn [bind] in H.
    destruct (get doc "id" (JStr "unknown")) as [i|]; cbn [bind] in H; [|discriminate].
    destruct (get doc "title" (JStr "")) as [t|]; cbn [bind] in H; [|discriminate].
    destruct (if is_None s then Ok 0%float else py_float float_of_str s)
      as [x|]; cbn [bind] in H; [|discriminate].
    exists x. split; [reflexivity|].
    destruct (get doc "published" JNull) as [pb|]; cbn [bind] in H; [|discriminate].
    destruct (if truthy pb then Ok pb else get doc "lastseen" JNull) as [pb'|];
      cbn [bind] in H; [|discriminate].
    destruct (get doc "href" JNull) as [h|]; cbn [bind] in H; [|discriminate].
    destruct (if truthy h then _ else _) as [r|]; cbn [bind] in H; [|discriminate].
    injection H as <-. reflexivity.
  - exfalso. unfold chosen_score in C.
    destruct (get doc "cvss" (JObj [])) as [c|]; cbn [bind] in *; [|discriminate].
    destruct (get (py_or c (JObj [])) "score" JNull) as [sc|];
      cbn [bind] in *; [|discriminate].
    rewrite C in H. discriminate.
Qed.

(** The remote source counts when a credential is set and the [try]
    block ends with at least one record; otherwise it is unusable. *)
Definition remote_unusable (w : World) : Prop :=
  api_key w = ""
  \/ (exists e, remote_vulns float_of_str w (api_key w) = Raise e)
  \/ remote_vulns float_of_str w (api_key w) = Ok [].

Lemma fetch_local (w : World) :
  remote_unusable w ->
  fetch_vulners_data float_of_str w
  = (local_data <- fallback_file w ;; Ok (local_data, "local_vulners_sample")).
Proof.
  unfold fetch_vulners_data. intros [H | [[e H] | H]]; rewrite H.
  - reflexivity.
  - destruct (negb _); reflexivity.
  - destruct (negb _); reflexivity.
Qed.

Lemma fetch_api (w : World) (data : json) :
  fetch_vulners_data float_of_str w = Ok (data, "vulners_api") ->
  exists vulns,
    remote_vulns float_of_str w (api_key w) = Ok vulns /\ data = JArr vulns.
Proof.
  unfold fetch_vulners_data.
  destruct (negb (api_key w =? "")%string).
  - destruct (remote_vulns float_of_str w (api_key w)) as [[|v vs]|e].
    + destruct (fallback_file w); cbn [bind]; intros E; inversion E.
    + intros E. injection E as <-. eexists. split; reflexivity.
    + destruct (fallback_file w); cbn [bind]; intros E; inversion E.
  - destruct (fallback_file w); cbn [bind]; intros E; inversion E.
Qed.

End Fetch.

End VulnersFacts.

(** * Properties of the specification *)

Import Engine EngineFacts.

(** ** Sample inputs *)

Definition event (kind : string) (src : cell) (sev : option Z) : Event.t :=
  Event.mk (Some "2024-05-01T10:00:00") (Some kind) src (Some "192.168.1.1")
           sev None None.

(** One alert of severity 1 and one dns query from the same address. *)
Definition scenario_A : DataFrame Event.t :=
  from_records Event.keys
    [event "alert" (Some "10.0.0.5") (Some 1); event "dns" (Some "10.0.0.5") None].

(** Six dns queries from one address, no alert. *)
Definition scenario_B : DataFrame Event.t :=
  from_records Event.keys (repeat (event "dns" (Some "10.0.0.9") None) 6).

(** An event file without events, as [load_suricata_events] hands it on:
    the frame built from no record has no column. *)
Definition scenario_C : DataFrame Event.t := from_records Event.keys [].

(** Two alerts without severity; the address seen first is the larger. *)
Definition two_alerts : DataFrame Event.t :=
  from_records Event.keys
    [event "alert" (Some "10.0.0.2") None; event "alert" (Some "10.0.0.1") None].

(** The same two alerts the other way round. *)
Definition two_alerts_swapped : DataFrame Event.t :=
  from_records Event.keys
    [event "alert" (Some "10.0.0.1") None; event "alert" (Some "10.0.0.2") None].

(** Alerts with and without severity, and events without source. *)
Definition mixed_events : DataFrame Event.t :=
  from_records Event.keys
    [event "alert" (Some "10.0.0.7") (Some 1);
     event "alert" (Some "10.0.0.7") None;
     event "alert" (Some "10.0.0.7") (Some 3);
     event "alert" None (Some 1);
     event "dns" None None;
     event "flow" (Some "10.0.0.8") None;
     event "alert" (Some "10.0.0.3") (Some 2)].

Example scenario_A_table :
  exists res, analyze (sorter := stable_sort) [] scenario_A = Ok res
    /\ suspicious res = [mkStat (Some "10.0.0.5") 1 1 1 7]
    /\ threats res = [mkStat (Some "10.0.0.5") 1 1 1 7].
Proof. eexists. split; [reflexivity|]. split; reflexivity. Qed.

Example scenario_B_table :
  exists res, analyze (sorter := stable_sort) [] scenario_B = Ok res
    /\ suspicious res = [mkStat (Some "10.0.0.9") 0 0 6 3]
    /\ threats res = [].
Proof. eexists. split; [reflexivity|]. split; reflexivity. Qed.

(** ** C1 *)

(** C1: in every row of the per-address statistics that [analyze]
    returns, risk_score = high_severity_alert_count * 5 + alert_count * 2
    + 3 if dns_query_count is at least the DNS spike threshold (6), else
    + 0; whatever the vulnerability list and the event frame. *)
Theorem risk_score_formula (sorter : SortValues) (vulns : list Vuln.t)
  (df : DataFrame Event.t) (res : Analysis) :
  analyze vulns df = Ok res ->
  Forall (fun r =>
            risk_score r
            = high_severity_alert_count r * 5 + alert_count r * 2
              + (if dns_query_count r >=? DNS_SPIKE_THRESHOLD then 3 else 0))
         (suspicious res).
Proof.
  intros H. apply analyze_inv in H. destruct H as (_ & _ & Hs & _).
  apply Forall_forall. intros r Hr. rewrite Hs in Hr.
  apply sort_values_In, grouped_row in Hr.
  destruct Hr as (a & _ & _ & _ & _ & _ & Er). rewrite Er.
  destruct (dns_query_count r >=? DNS_SPIKE_THRESHOLD); reflexivity.
Qed.

Lemma risk_score_formula_witness :
  exists res,
    analyze (sorter := stable_sort) [] scenario_A = Ok res
    /\ Forall (fun r =>
                 risk_score r
                 = high_severity_alert_count r * 5 + alert_count r * 2
                   + (if dns_query_count r >=? DNS_SPIKE_THRESHOLD
                      then 3 else 0))
              (suspicious res).
Proof.
  eexists. split; [reflexivity|].
  apply (risk_score_formula stable_sort [] scenario_A). reflexivity.
Defined.

(** ** C2 *)

(** C2: on the empty event set, that is the frame built from no record,
    [analyze] does not return: the frame has no column and the first
    column access raises KeyError('event_type'). *)
Theorem analyze_empty_event_set_raises (sorter : SortValues)
  (vulns : list Vuln.t) :
  analyze vulns scenario_C = Raise (KeyError "event_type").
Proof. apply analyze_missing_column. reflexivity. Qed.

(** What goes right around it: the loader returns that frame for a file
    without events, and the response simulator takes an empty threat
    list. *)
Lemma load_no_events (to_datetime : json -> json) :
  Suricata.load_suricata_events to_datetime
    [Suricata.Blank; Suricata.Blank]
  = Ok (from_records Event.keys []).
Proof. reflexivity. Qed.

Lemma simulate_response_no_threats : simulate_response [] = [].
Proof. reflexivity. Qed.

(** A frame that keeps its columns and has no row gives empty tables. *)
Lemma analyze_no_rows (sorter : SortValues) (vulns : list Vuln.t) :
  exists res,
    analyze vulns (mkFrame Event.keys []) = Ok res
    /\ suspicious res = [] /\ threats res = []
    /\ simulate_response (threats res) = [].
Proof.
  destruct (analyze_returns vulns (mkFrame Event.keys []))
    as [res H]; [repeat split|].
  exists res. split; [exact H|].
  destruct (analyze_no_events vulns _ res H eq_refl eq_refl) as [Es Et].
  rewrite Et. repeat split; assumption.
Qed.

(** ** C3 *)

Import SuricataFacts.

Definition alert_line : Suricata.Line :=
  Suricata.Doc (JObj [("timestamp", JStr "2024-05-01T10:00:00");
             ("event_type", JStr "alert");
             ("src_ip", JStr "10.0.0.5");
             ("alert", JObj [("severity", JInt 1)])]).

Definition dns_line : Suricata.Line :=
  Suricata.Doc (JObj [("event_type", JStr "dns");
             ("src_ip", JStr "10.0.0.5");
             ("dns", JObj [("rrname", JStr "example.org")])]).



Definition broken_file : list Suricata.Line := [alert_line; Suricata.Blank; Suricata.NotJson; dns_line].


Example broken_file_raises :
  Suricata.load_suricata_events (fun t => t) broken_file = Raise JSONDecodeError.
Proof. reflexivity. Qed.

(** The same file without the bad line loads its two events. *)
Example mended_file_loads :
  exists df, Suricata.load_suricata_events (fun t => t) (filter parses broken_file)
             = Ok df
    /\ List.length (rows df) = 2%nat /\ columns df = Event.keys.
Proof. eexists. split; [reflexivity|]. split; reflexivity. Qed.

(** ** C4 *)

(** Position of the first alert or dns event of an address. *)
Fixpoint first_seen (events : list Event.t) (a : cell) : nat :=
  match events with
  | [] => 0
  | e :: rest =>
      if (is_alert e || is_dns e) && cell_eqb a (Event.src_ip e) then 0%nat
      else S (first_seen rest a)
  end.

(** Rows with equal score come in the order their addresses were first
    seen. *)
Definition ties_in_first_seen_order (events : list Event.t)
  (table : list StatRow) : Prop :=
  forall i j ri rj,
    (i < j)%nat ->
    nth_error table i = Some ri -> nth_error table j = Some rj ->
    risk_score ri = risk_score rj ->
    (first_seen events (src_ip ri) < first_seen events (src_ip rj))%nat.

(** C4 as stated: the table is ordered by non-increasing risk_score and
    rows with equal score keep the first-seen order of their addresses.
    It fails on two alerts whose addresses arrive largest first: grouping
    orders the addresses, and even a sort that keeps ties in place
    returns them smallest first. *)
Lemma equal_scores_not_in_first_seen_order :
  ~ (forall (sorter : SortValues) (vulns : list Vuln.t)
            (df : DataFrame Event.t) (res : Analysis),
       analyze vulns df = Ok res ->
       descending (map risk_score (suspicious res))
       /\ ties_in_first_seen_order (rows df) (suspicious res)).
Proof.
  intros H.
  destruct (H stable_sort [] two_alerts _ eq_refl) as [_ T].
  specialize (T 0%nat 1%nat (mkStat (Some "10.0.0.1") 1 0 0 2)
                (mkStat (Some "10.0.0.2") 1 0 0 2)
                (Nat.lt_0_succ 0) eq_refl eq_refl eq_refl).
  vm_compute in T. lia.
Qed.

(** No sort saves the first-seen order: the grouped table is the same
    for the two arrival orders, so is the sorted one, and one of the two
    arrival orders contradicts it. *)
Lemma first_seen_order_fails_for_every_sort (sorter : SortValues)
  (res res' : Analysis) :
  analyze [] two_alerts = Ok res ->
  analyze [] two_alerts_swapped = Ok res' ->
  ~ (ties_in_first_seen_order (rows two_alerts) (suspicious res)
     /\ ties_in_first_seen_order (rows two_alerts_swapped) (suspicious res')).
Proof.
  intros H H'. apply analyze_inv in H, H'.
  destruct H as (_ & _ & Hs & _), H' as (_ & _ & Hs' & _).
  change (grouped (rows two_alerts_swapped))
    with (grouped (rows two_alerts)) in Hs'.
  rewrite <- Hs in Hs'. rewrite Hs'. clear Hs' res'.
  pose proof (sort_values_perm risk_score (grouped (rows two_alerts))) as P.
  rewrite <- Hs in P. symmetry in P.
  change (grouped (rows two_alerts))
    with [mkStat (Some "10.0.0.1") 1 0 0 2; mkStat (Some "10.0.0.2") 1 0 0 2]
    in P.
  apply Permutation_length_2_inv in P.
  intros [T T'].
  destruct P as [E | E]; rewrite E in T, T'.
  - specialize (T 0%nat 1%nat _ _ (Nat.lt_0_succ 0) eq_refl eq_refl eq_refl).
    vm_compute in T. lia.
  - specialize (T' 0%nat 1%nat _ _ (Nat.lt_0_succ 0) eq_refl eq_refl eq_refl).
    vm_compute in T'. lia.
Qed.

(** Nor is the order of the grouped table kept: the contract of the sort
    leaves rows of equal score in either order. *)
Lemma equal_scores_order_depends_on_sort :
  exists res res',
    analyze (sorter := stable_sort) [] two_alerts = Ok res
    /\ analyze (sorter := reversing_sort) [] two_alerts = Ok res'
    /\ map src_ip (suspicious res) = [Some "10.0.0.1"; Some "10.0.0.2"]
    /\ map src_ip (suspicious res') = [Some "10.0.0.2"; Some "10.0.0.1"].
Proof.
  do 2 eexists. split; [reflexivity|]. split; [reflexivity|].
  split; reflexivity.
Qed.

(** C4, amended: the per-address statistics returned by [analyze] are
    the grouped rows ordered by risk_score in non-increasing order; which
    of two rows with equal risk_score comes first is not fixed by the
    order in which their addresses were first seen. *)
Theorem statistics_sorted_by_risk (sorter : SortValues) (vulns : list Vuln.t)
  (df : DataFrame Event.t) (res : Analysis) :
  analyze vulns df = Ok res ->
  descending (map risk_score (suspicious res))
  /\ Permutation (suspicious res) (grouped (rows df)).
Proof.
  intros H. apply analyze_inv in H. destruct H as (_ & _ & -> & _).
  split; [apply sort_values_sorted | apply sort_values_perm].
Qed.

Lemma statistics_sorted_by_risk_witness :
  exists res,
    analyze (sorter := stable_sort) [] mixed_events = Ok res
    /\ descending (map risk_score (suspicious res))
    /\ Permutation (suspicious res) (grouped (rows mixed_events)).
Proof.
  eexists. split; [reflexivity|].
  apply (statistics_sorted_by_risk stable_sort [] mixed_events). reflexivity.
Defined.

(** ** C5 *)

(** C5: the threat list is the sorted statistics table restricted to the
    rows whose risk_score is at least 5, in the order of that table. *)
Theorem threats_are_rows_scoring_5_or_more (sorter : SortValues)
  (vulns : list Vuln.t) (df : DataFrame Event.t) (res : Analysis) :
  analyze vulns df = Ok res ->
  threats res = filter (fun r => risk_score r >=? 5) (suspicious res)
  /\ (forall r, In r (threats res)
                <-> In r (suspicious res) /\ risk_score r >= 5).
Proof.
  intros H. apply analyze_inv in H. destruct H as (_ & _ & _ & Ht).
  split; [exact Ht|]. intros r. rewrite Ht, filter_In.
  rewrite Z.geb_le. split; intros [? ?]; split; auto; lia.
Qed.

Lemma threats_are_rows_scoring_5_or_more_witness :
  exists res,
    analyze (sorter := stable_sort) [] mixed_events = Ok res
    /\ threats res = filter (fun r => risk_score r >=? 5) (suspicious res)
    /\ (forall r, In r (threats res)
                  <-> In r (suspicious res) /\ risk_score r >= 5).
Proof.
  eexists. split; [reflexivity|].
  apply (threats_are_rows_scoring_5_or_more stable_sort [] mixed_events).
  reflexivity.
Defined.

(** Scenario B of the specification: six dns queries score 3 and are no
    threat. *)
Example six_dns_queries_no_threat :
  exists res, analyze (sorter := stable_sort) [] scenario_B = Ok res
    /\ map risk_score (suspicious res) = [3] /\ threats res = [].
Proof. eexists. split; [reflexivity|]. split; reflexivity. Qed.

(** ** C6 *)

Import VulnersFacts.

(** C6: without a credential, or when the remote fetch fails for any
    reason (an exception anywhere in the [try] block) or yields no
    document, [fetch_vulners_data] returns the local fallback dataset
    with the label of the local source, and the only exception that can
    reach the caller is one raised while reading the local dataset. *)
Theorem fetch_falls_back_to_local_data (float_of_str : string -> option float)
  (w : Vulners.World) :
  remote_unusable float_of_str w ->
  (forall local_data,
      Vulners.fallback_file w = Ok local_data ->
      Vulners.fetch_vulners_data float_of_str w
      = Ok (local_data, "local_vulners_sample"))
  /\ (forall e,
         Vulners.fetch_vulners_data float_of_str w = Raise e ->
         Vulners.fallback_file w = Raise e).
Proof.
  intros H. rewrite (fetch_local float_of_str w H). split.
  - intros local_data ->. reflexivity.
  - intros e. destruct (Vulners.fallback_file w); cbn [bind]; congruence.
Qed.

Definition sample_local_data : json :=
  JArr [JObj [("id", JStr "CVE-2024-0001"); ("title", JStr "sample");
              ("cvss", JFloat 9.5%float)]].

(** The request itself fails. *)
Definition network_down : Vulners.World :=
  Vulners.mkWorld (Some " secret ") (fun _ => Raise ConnectionError)
                  (Ok sample_local_data).

(** The source answers with a payload that holds no document. *)
Definition no_documents : Vulners.World :=
  Vulners.mkWorld (Some "secret")
    (fun _ => Ok (Vulners.mkResponse (Ok tt)
                    (Ok (JObj [("data", JObj [("search", JArr [])])]))))
    (Ok sample_local_data).

(** The source answers with something that is not the expected object. *)
Definition malformed_payload : Vulners.World :=
  Vulners.mkWorld (Some "secret")
    (fun _ => Ok (Vulners.mkResponse (Ok tt) (Ok (JArr [JInt 1]))))
    (Ok sample_local_data).

(** No credential: the variable is not set, or holds white space. *)
Definition no_credential : Vulners.World :=
  Vulners.mkWorld None (fun _ => Raise ConnectionError) (Ok sample_local_data).

Definition blank_credential : Vulners.World :=
  Vulners.mkWorld (Some "  ")
    (fun _ => Ok (Vulners.mkResponse (Ok tt)
                    (Ok (JObj [("data", JObj [("search", JArr [
                       JObj [("id", JStr "CVE-1")]])])]))))
    (Ok sample_local_data).

(** A credential that is one no-break space, U+00A0: [strip] leaves
    nothing of it, so no request is sent. *)
Definition nbsp : string := String (ascii_of_N 194) (String (ascii_of_N 160) "").

Definition nbsp_credential : Vulners.World :=
  Vulners.mkWorld (Some nbsp)
    (fun _ => Ok (Vulners.mkResponse (Ok tt)
                    (Ok (JObj [("data", JObj [("search", JArr [
                       JObj [("id", JStr "CVE-1")]])])]))))
    (Ok sample_local_data).

Definition no_float : string -> option float := fun _ => None.

Lemma fetch_falls_back_to_local_data_witness :
  (forall local_data,
      Vulners.fallback_file network_down = Ok local_data ->
      Vulners.fetch_vulners_data no_float network_down
      = Ok (local_data, "local_vulners_sample"))
  /\ (forall e,
         Vulners.fetch_vulners_data no_float network_down = Raise e ->
         Vulners.fallback_file network_down = Raise e).
Proof.
  apply (fetch_falls_back_to_local_data no_float network_down).
  right. left. exists ConnectionError. reflexivity.
Defined.

Example fallback_cases :
  Vulners.fetch_vulners_data no_float no_credential
  = Ok (sample_local_data, "local_vulners_sample")
  /\ Vulners.fetch_vulners_data no_float blank_credential
     = Ok (sample_local_data, "local_vulners_sample")
  /\ Vulners.fetch_vulners_data no_float nbsp_credential
     = Ok (sample_local_data, "local_vulners_sample")
  /\ Vulners.fetch_vulners_data no_float network_down
     = Ok (sample_local_data, "local_vulners_sample")
  /\ Vulners.fetch_vulners_data no_float malformed_payload
     = Ok (sample_local_data, "local_vulners_sample")
  /\ Vulners.fetch_vulners_data no_float no_documents
     = Ok (sample_local_data, "local_vulners_sample").
Proof. repeat split; reflexivity. Qed.

(** ** C9 *)

(** A document whose two score fields are absent, the v3 one because
    [cvss3] is null. *)
Definition null_cvss3_document : json :=
  JObj [("id", JStr "CVE-2024-0002"); ("cvss3", JNull)].

(** A payload of two documents: one with a primary score, and
    [null_cvss3_document]. *)
Definition null_cvss3_payload : Vulners.World :=
  Vulners.mkWorld (Some "secret")
    (fun _ =>
       Ok (Vulners.mkResponse (Ok tt)
             (Ok (JObj [("data", JObj [("search", JArr [
                JObj [("id", JStr "CVE-2024-0001");
                      ("cvss", JObj [("score", JFloat 9.5%float)])];
                null_cvss3_document])])]))))
    (Ok sample_local_data).

(** C9: the resolution does not reach every document.  In
    [null_cvss3_document] neither the primary score field nor the nested
    v3 base score is there, so its score should be 0.0; the code looks
    into [cvss3] without the [or {}] that guards [cvss], raises
    AttributeError on the null, and with it drops the record, the other
    records of the payload and the remote source. *)
Theorem null_cvss3_is_not_resolved (float_of_str : string -> option float) :
  primary_score null_cvss3_document = None
  /\ v3_base_score null_cvss3_document = None
  /\ resolved_score float_of_str null_cvss3_document = Ok 0%float
  /\ Vulners.parse_doc float_of_str null_cvss3_document = Raise AttributeError
  /\ Vulners.fetch_vulners_data float_of_str null_cvss3_payload
     = Ok (sample_local_data, "local_vulners_sample").
Proof. repeat split; reflexivity. Qed.

(** The same document with a null [cvss] is read: there the code has the
    guard. *)
Example null_cvss_is_resolved :
  Vulners.parse_doc no_float (JObj [("id", JStr "CVE-2024-0003"); ("cvss", JNull)])
  = Ok (JObj [("id", JStr "CVE-2024-0003"); ("title", JStr "");
              ("cvss", JFloat 0%float); ("published", JNull);
              ("references", JArr [])]).
Proof. reflexivity. Qed.

(** What does hold: when the remote payload is used, every record comes
    from one document of the payload, in order, and its cvss is the float
    of the primary score field, else of the nested v3 base score, else
    0.0. *)
Theorem cvss_resolved_per_document (float_of_str : string -> option float)
  (w : Vulners.World) (data : json) :
  Vulners.fetch_vulners_data float_of_str w = Ok (data, "vulners_api") ->
  exists docs vulns,
    Vulners.remote_docs w (Vulners.api_key w) = Ok docs
    /\ data = JArr vulns
    /\ Forall2 (has_score float_of_str) docs vulns.
Proof.
  intros H. apply fetch_api in H. destruct H as (vulns & H & ->).
  unfold Vulners.remote_vulns in H.
  destruct (Vulners.remote_docs w (Vulners.api_key w)) as [docs|];
    cbn [bind] in H; [|discriminate].
  exists docs, vulns. split; [reflexivity|]. split; [reflexivity|].
  apply for_each_Forall2 in H.
  eapply Forall2_impl; [|exact H].
  intros doc v. apply parse_doc_score.
Qed.

(** Three documents: a primary score, only a v3 base score, neither. *)
Definition three_documents : Vulners.World :=
  Vulners.mkWorld (Some "secret")
    (fun _ =>
       Ok (Vulners.mkResponse (Ok tt)
             (Ok (JObj [("data", JObj [("search", JArr [
                JObj [("id", JStr "CVE-1");
                      ("cvss", JObj [("score", JFloat 9.5%float)]);
                      ("cvss3", JObj [("cvssV3",
                                       JObj [("baseScore", JFloat 7.5%float)])])];
                JObj [("id", JStr "CVE-2");
                      ("cvss", JObj [("score", JNull)]);
                      ("cvss3", JObj [("cvssV3",
                                       JObj [("baseScore", JInt 7)])])];
                JObj [("id", JStr "CVE-3")]])])]))))
    (Ok sample_local_data).

Lemma cvss_resolved_per_document_witness :
  exists data docs vulns,
    Vulners.fetch_vulners_data no_float three_documents
    = Ok (data, "vulners_api")
    /\ Vulners.remote_docs three_documents (Vulners.api_key three_documents)
       = Ok docs
    /\ data = JArr vulns
    /\ Forall2 (has_score no_float) docs vulns.
Proof.
  destruct (cvss_resolved_per_document no_float three_documents _ eq_refl)
    as (docs & vulns & Hd & Hv & Hs).
  eexists. exists docs, vulns. split; [reflexivity|].
  split; [exact Hd|]. split; [exact Hv | exact Hs].
Defined.

Example three_documents_scores :
  exists vulns,
    Vulners.fetch_vulners_data no_float three_documents
    = Ok (JArr vulns, "vulners_api")
    /\ map (fun v => field v "cvss") vulns
       = [Some (JFloat 9.5%float); Some (JFloat 7%float); Some (JFloat 0%float)].
Proof. eexists. split; reflexivity. Qed.

(** One document that cannot be read discards the whole remote answer. *)
Example one_bad_document_discards_all :
  Vulners.fetch_vulners_data no_float
    (Vulners.mkWorld (Some "secret")
       (fun _ =>
          Ok (Vulners.mkResponse (Ok tt)
                (Ok (JObj [("data", JObj [("search", JArr [
                   JObj [("id", JStr "CVE-1");
                         ("cvss", JObj [("score", JFloat 9.5%float)])];
                   JObj [("id", JStr "CVE-2"); ("cvss", JFloat 5%float)]])])]))))
       (Ok sample_local_data))
  = Ok (sample_local_data, "local_vulners_sample").
Proof. reflexivity. Qed.

(** ** C7 *)

(** An alert counts as high severity when it carries a severity that is
    at most 2; one without severity does not. *)
Definition severity_at_most_2 (e : Event.t) : bool :=
  match Event.severity e with
  | Some s => s <=? 2
  | None => false
  end.

(** Number of alert events of an address with severity at most 2. *)
Definition high_severity_alerts_from (a : string) (events : list Event.t) : Z :=
  Z.of_nat (List.length
              (filter (fun e => is_alert e && severity_at_most_2 e
                                && from_address a e) events)).

(** Filling a missing severity with 99 is leaving the alert out. *)
Lemma is_high_spec (e : Event.t) : is_high e = severity_at_most_2 e.
Proof.
  unfold is_high, severity_at_most_2. destruct (Event.severity e); reflexivity.
Qed.

Lemma events_from_high (a : string) (events : list Event.t) :
  events_from a (high_of events) = high_severity_alerts_from a events.
Proof.
  unfold events_from, high_severity_alerts_from, high_of, alerts_of.
  f_equal. f_equal.
  induction events as [|e l IH]; simpl; [reflexivity|].
  rewrite <- is_high_spec.
  destruct (is_alert e); simpl; [|exact IH].
  destruct (is_high e); simpl; [|exact IH].
  destruct (from_address a e); simpl; rewrite IH; reflexivity.
Qed.

(** C7: for every row of the statistics, and so for every alert group,
    high_severity_alert_count is the number of alert events of the row's
    address whose severity is at most 2; an alert without severity is
    compared as 99 and is not counted.  Every address with an alert has
    its row. *)
Theorem high_severity_count_exact (sorter : SortValues) (vulns : list Vuln.t)
  (df : DataFrame Event.t) (res : Analysis) :
  analyze vulns df = Ok res ->
  Forall (fun r => exists a,
              src_ip r = Some a
              /\ high_severity_alert_count r
                 = high_severity_alerts_from a (rows df))
         (suspicious res)
  /\ (forall e a,
         In e (rows df) -> is_alert e = true -> Event.src_ip e = Some a ->
         exists r, In r (suspicious res) /\ src_ip r = Some a)
  /\ (forall e, Event.severity e = None ->
                fillna 99 (Event.severity e) = 99 /\ is_high e = false).
Proof.
  intros H. apply analyze_inv in H. destruct H as (_ & _ & Hs & _).
  split; [|split].
  - apply Forall_forall. intros r Hr. rewrite Hs in Hr.
    apply sort_values_In, grouped_row in Hr.
    destruct Hr as (a & Ea & _ & _ & Eh & _). exists a.
    rewrite Eh, events_from_high. split; [exact Ea | reflexivity].
  - intros e a He Halert Hsrc.
    destruct (grouped_covers (rows df) a) as (r & Hr & Er).
    + left. rewrite <- Hsrc. apply in_map. apply filter_In. split; assumption.
    + exists r. split; [|exact Er]. rewrite Hs. apply sort_values_In. exact Hr.
  - intros e He. unfold is_high. rewrite He. split; reflexivity.
Qed.

Lemma high_severity_count_exact_witness :
  exists res,
    analyze (sorter := stable_sort) [] mixed_events = Ok res
    /\ Forall (fun r => exists a,
                   src_ip r = Some a
                   /\ high_severity_alert_count r
                      = high_severity_alerts_from a (rows mixed_events))
              (suspicious res)
    /\ (forall e a,
           In e (rows mixed_events) -> is_alert e = true ->
           Event.src_ip e = Some a ->
           exists r, In r (suspicious res) /\ src_ip r = Some a)
    /\ (forall e, Event.severity e = None ->
                  fillna 99 (Event.severity e) = 99 /\ is_high e = false).
Proof.
  eexists. split; [reflexivity|].
  apply (high_severity_count_exact stable_sort [] mixed_events). reflexivity.
Defined.

(** Of the three alerts of 10.0.0.7, with severity 1, none and 3, one
    is high. *)
Example mixed_events_table :
  exists res,
    analyze (sorter := stable_sort) [] mixed_events = Ok res
    /\ suspicious res
       = [mkStat (Some "10.0.0.7") 3 1 0 11; mkStat (Some "10.0.0.3") 1 1 0 7]
    /\ threats res = suspicious res.
Proof. eexists. split; [reflexivity|]. split; reflexivity. Qed.

(** ** C8 *)

(** C8: in every row of the statistics, high_severity_alert_count is at
    most alert_count (and neither is negative). *)
Theorem high_severity_at_most_alerts (sorter : SortValues)
  (vulns : list Vuln.t) (df : DataFrame Event.t) (res : Analysis) :
  analyze vulns df = Ok res ->
  Forall (fun r => 0 <= high_severity_alert_count r <= alert_count r)
         (suspicious res).
Proof.
  intros H. apply analyze_inv in H. destruct H as (_ & _ & Hs & _).
  apply Forall_forall. intros r Hr. rewrite Hs in Hr.
  apply sort_values_In, grouped_row in Hr.
  destruct Hr as (a & _ & _ & Ea & Eh & _). rewrite Ea, Eh.
  apply events_from_le.
Qed.

Lemma high_severity_at_most_alerts_witness :
  exists res,
    analyze (sorter := stable_sort) [] mixed_events = Ok res
    /\ Forall (fun r => 0 <= high_severity_alert_count r <= alert_count r)
              (suspicious res).
Proof.
  eexists. split; [reflexivity|].
  apply (high_severity_at_most_alerts stable_sort [] mixed_events).
  reflexivity.
Defined.

(** ** C10 *)

(** [df[df["src_ip"].notna()]]: the frame without the events that have
    no source address. *)
Definition with_source (df : DataFrame Event.t) : DataFrame Event.t :=
  mkFrame (columns df) (filter has_source (rows df)).

(** C10: every row of the statistics has a source address, and events
    without one count for nothing: without them [analyze] returns the
    same statistics and the same threats. *)
Theorem null_sources_excluded (sorter : SortValues) (vulns : list Vuln.t)
  (df : DataFrame Event.t) (res : Analysis) :
  analyze vulns df = Ok res ->
  Forall (fun r => src_ip r <> None) (suspicious res)
  /\ exists res',
       analyze vulns (with_source df) = Ok res'
       /\ suspicious res' = suspicious res /\ threats res' = threats res.
Proof.
  intros H. apply analyze_inv in H. destruct H as (Hc & _ & Hs & Ht).
  split.
  - apply Forall_forall. intros r Hr. rewrite Hs in Hr.
    apply sort_values_In, grouped_row in Hr.
    destruct Hr as (a & Ea & _). congruence.
  - destruct (analyze_returns vulns (with_source df) Hc) as [res' H'].
    exists res'. split; [exact H'|].
    apply analyze_inv in H'. destruct H' as (_ & _ & Hs' & Ht').
    cbn [with_source rows] in Hs'. rewrite grouped_dropna in Hs'.
    assert (suspicious res' = suspicious res) as E by congruence.
    split; [exact E|]. rewrite Ht', Ht, E. reflexivity.
Qed.

Lemma null_sources_excluded_witness :
  exists res,
    analyze (sorter := stable_sort) [] mixed_events = Ok res
    /\ Forall (fun r => src_ip r <> None) (suspicious res)
    /\ exists res',
         analyze (sorter := stable_sort) [] (with_source mixed_events) = Ok res'
         /\ suspicious res' = suspicious res /\ threats res' = threats res.
Proof.
  eexists. split; [reflexivity|].
  apply (null_sources_excluded stable_sort [] mixed_events). reflexivity.
Defined.

(** * Further properties of the code *)

(** ** [analyze]: the statistics table *)

Lemma union_index_NoDup (a b c : list cell) : NoDup (union_index [a; b; c]).
Proof.
  unfold union_index. apply NoDup_app; try apply unique_NoDup.
  intros k Hk Hk'. apply unique_In, filter_In in Hk'.
  destruct Hk' as [_ Hm]. apply mem_In in Hk. rewrite Hk in Hm. discriminate.
Qed.

Lemma joined_addresses (ac hc dc : Series) :
  map src_ip (joined ac hc dc)
  = union_index [map fst ac; map fst hc; map fst dc].
Proof.
  unfold joined. rewrite map_map. apply map_id.
Qed.

(** An event that takes part in the grouping: an alert or a dns query
    that carries a source address. *)
Definition observed (a : string) (e : Event.t) : Prop :=
  (is_alert e = true \/ is_dns e = true) /\ Event.src_ip e = Some a.

Lemma in_sources (a : string) (p : Event.t -> bool) (events : list Event.t) :
  In (Some a) (map Event.src_ip (filter p events))
  <-> exists e, In e events /\ p e = true /\ Event.src_ip e = Some a.
Proof.
  rewrite in_map_iff. split.
  - intros (e & E & He). apply filter_In in He. exists e. tauto.
  - intros (e & He & Hp & E). exists e. rewrite filter_In. tauto.
Qed.

(** Selecting rows keeps their keys distinct. *)
Lemma distinct_after_filter {R K : Type} (key : R -> K) (keep : R -> bool)
  (table : list R) (N : NoDup (map key table)) :
  NoDup (map key (filter keep table)).
Proof.
  induction table as [|r table IH]; simpl in *; [constructor|].
  apply NoDup_cons_iff in N. destruct N as [Hr N].
  destruct (keep r); simpl; auto.
  constructor; auto. intros Hin. apply Hr.
  apply in_map_iff in Hin. destruct Hin as (y & E & Hy).
  apply filter_In in Hy. apply in_map_iff. exists y. tauto.
Qed.

(** No address has two rows. *)
Theorem addresses_are_unique (sorter : SortValues) (vulns : list Vuln.t)
  (df : DataFrame Event.t) (res : Analysis) :
  analyze vulns df = Ok res ->
  NoDup (map src_ip (suspicious res)) /\ NoDup (map src_ip (threats res)).
Proof.
  intros H. apply analyze_inv in H. destruct H as (_ & _ & Hs & Ht).
  assert (NoDup (map src_ip (suspicious res))) as N.
  { rewrite Hs.
    apply (Permutation_NoDup
             (Permutation_map src_ip
                (Permutation_sym (sort_values_perm risk_score _)))).
    unfold grouped. rewrite joined_addresses. apply union_index_NoDup. }
  split; [exact N|]. rewrite Ht. apply distinct_after_filter. exact N.
Qed.

Lemma addresses_are_unique_witness :
  exists res,
    analyze (sorter := stable_sort) [] mixed_events = Ok res
    /\ NoDup (map src_ip (suspicious res)) /\ NoDup (map src_ip (threats res)).
Proof.
  eexists. split; [reflexivity|].
  apply (addresses_are_unique stable_sort [] mixed_events). reflexivity.
Defined.

(** The addresses of the table are exactly the addresses that some alert
    or dns event carries: other event types bring no row. *)
Theorem rows_are_the_observed_addresses (sorter : SortValues)
  (vulns : list Vuln.t) (df : DataFrame Event.t) (res : Analysis) :
  analyze vulns df = Ok res ->
  forall a : string,
    In (Some a) (map src_ip (suspicious res))
    <-> exists e, In e (rows df) /\ observed a e.
Proof.
  intros H a. apply analyze_inv in H. destruct H as (_ & _ & Hs & _).
  unfold observed. split.
  - rewrite in_map_iff. intros (r & Er & Hr). rewrite Hs in Hr.
    apply sort_values_In, grouped_row in Hr.
    destruct Hr as (a' & Ea & Hin & _).
    assert (a' = a) as -> by congruence.
    destruct Hin as [Hin | Hin]; apply in_sources in Hin;
      destruct Hin as (e & He & Hp & E); exists e; tauto.
  - intros (e & He & [Hp | Hp] & E).
    + destruct (grouped_covers (rows df) a) as (r & Hr & Er).
      { left. apply in_sources. exists e. tauto. }
      rewrite <- Er. apply in_map. rewrite Hs. apply sort_values_In. exact Hr.
    + destruct (grouped_covers (rows df) a) as (r & Hr & Er).
      { right. apply in_sources. exists e. tauto. }
      rewrite <- Er. apply in_map. rewrite Hs. apply sort_values_In. exact Hr.
Qed.

Lemma rows_are_the_observed_addresses_witness :
  exists res,
    analyze (sorter := stable_sort) [] mixed_events = Ok res
    /\ forall a : string,
         In (Some a) (map src_ip (suspicious res))
         <-> exists e, In e (rows mixed_events) /\ observed a e.
Proof.
  eexists. split; [reflexivity|].
  apply (rows_are_the_observed_addresses stable_sort [] mixed_events).
  reflexivity.
Defined.

(** The alert and dns columns of a row count the alert events and the
    dns events of its address. *)
Theorem alert_and_dns_counts_exact (sorter : SortValues)
  (vulns : list Vuln.t) (df : DataFrame Event.t) (res : Analysis) :
  analyze vulns df = Ok res ->
  Forall (fun r => exists a,
              src_ip r = Some a
              /\ alert_count r
                 = Z.of_nat (List.length
                     (filter (fun e => is_alert e && from_address a e) (rows df)))
              /\ dns_query_count r
                 = Z.of_nat (List.length
                     (filter (fun e => is_dns e && from_address a e) (rows df))))
         (suspicious res).
Proof.
  intros H. apply analyze_inv in H. destruct H as (_ & _ & Hs & _).
  apply Forall_forall. intros r Hr. rewrite Hs in Hr.
  apply sort_values_In, grouped_row in Hr.
  destruct Hr as (a & Ea & _ & Eal & _ & Ed & _). exists a.
  assert (forall p l, filter (from_address a) (filter p l)
                      = filter (fun e => p e && from_address a e) l) as F.
  { intros p l. induction l as [|e l IH]; simpl; [reflexivity|].
    destruct (p e); simpl; [|exact IH].
    destruct (from_address a e); rewrite IH; reflexivity. }
  rewrite Eal, Ed. unfold events_from, alerts_of, dns_of. rewrite !F.
  repeat split; assumption.
Qed.

Lemma alert_and_dns_counts_exact_witness :
  exists res,
    analyze (sorter := stable_sort) [] mixed_events = Ok res
    /\ Forall (fun r => exists a,
                   src_ip r = Some a
                   /\ alert_count r
                      = Z.of_nat (List.length
                          (filter (fun e => is_alert e && from_address a e)
                                  (rows mixed_events)))
                   /\ dns_query_count r
                      = Z.of_nat (List.length
                          (filter (fun e => is_dns e && from_address a e)
                                  (rows mixed_events))))
              (suspicious res).
Proof.
  eexists. split; [reflexivity|].
  apply (alert_and_dns_counts_exact stable_sort [] mixed_events). reflexivity.
Defined.

(** ** [analyze]: which rows are threats *)

(** A row is a threat exactly when its address has a high-severity alert,
    or three alerts, or one alert together with a dns spike.  So dns
    queries alone never make a threat, and one high-severity alert always
    does. *)
Theorem threat_criteria (sorter : SortValues) (vulns : list Vuln.t)
  (df : DataFrame Event.t) (res : Analysis) :
  analyze vulns df = Ok res ->
  forall r, In r (suspicious res) ->
    (In r (threats res)
     <-> high_severity_alert_count r >= 1
         \/ alert_count r >= 3
         \/ (alert_count r >= 1 /\ dns_query_count r >= DNS_SPIKE_THRESHOLD)).
Proof.
  intros H r Hr. apply analyze_inv in H. destruct H as (_ & _ & Hs & Ht).
  rewrite Ht, filter_In, Z.geb_le.
  pose proof Hr as Hg. rewrite Hs in Hg.
  apply sort_values_In, grouped_row in Hg.
  destruct Hg as (a & _ & _ & Ea & Eh & Ed & Er).
  pose proof (events_from_le a is_high (alerts_of (rows df))) as Bh.
  pose proof (events_from_bound a (dns_of (rows df))) as Bd.
  fold (high_of (rows df)) in Bh. rewrite <- Ea, <- Eh in Bh. rewrite <- Ed in Bd.
  rewrite Er. unfold DNS_SPIKE_THRESHOLD in *.
  destruct (Z.geb_spec (dns_query_count r) 6); simpl;
    (split; [intros [_ ?] | intros ?; split; [exact Hr|]]); lia.
Qed.

Lemma threat_criteria_witness :
  exists res,
    analyze (sorter := stable_sort) [] mixed_events = Ok res
    /\ forall r, In r (suspicious res) ->
         (In r (threats res)
          <-> high_severity_alert_count r >= 1
              \/ alert_count r >= 3
              \/ (alert_count r >= 1
                  /\ dns_query_count r >= DNS_SPIKE_THRESHOLD)).
Proof.
  eexists. split; [reflexivity|].
  apply (threat_criteria stable_sort [] mixed_events). reflexivity.
Defined.

(** One alert and six dns queries of the same address reach the
    threshold; the same address without the alert does not. *)
Example one_alert_and_a_dns_spike :
  exists res,
    analyze (sorter := stable_sort) []
      (from_records Event.keys
         (event "alert" (Some "10.0.0.9") None
          :: repeat (event "dns" (Some "10.0.0.9") None) 6)) = Ok res
    /\ threats res = [mkStat (Some "10.0.0.9") 1 0 6 5].
Proof. eexists. split; reflexivity. Qed.

Lemma filter_sorted_prefix {A : Type} (key : A -> Z) (c : Z) (l : list A) :
  descending (map key l) ->
  exists rest,
    l = filter (fun x => key x >=? c) l ++ rest
    /\ Forall (fun x => key x < c) rest.
Proof.
  induction l as [|x l IH]; simpl; intros S.
  - exists []. split; [reflexivity | constructor].
  - inversion S as [|? ? Sl Hx]; subst.
    destruct (Z.geb_spec (key x) c) as [G | L].
    + destruct (IH Sl) as (rest & E & F). exists rest.
      split; [simpl; f_equal; exact E | exact F].
    + assert (Forall (fun y => key y < c) l) as F.
      { apply Forall_forall. intros y Hy.
        rewrite Forall_forall in Hx.
        specialize (Hx (key y) (in_map key l y Hy)). lia. }
      exists (x :: l). split.
      * replace (filter (fun y => key y >=? c) l) with (@nil A); [reflexivity|].
        symmetry. clear - F. induction F as [|y l Hy _ IH]; simpl; [reflexivity|].
        destruct (Z.geb_spec (key y) c); [lia | exact IH].
      * constructor; assumption.
Qed.

(** The threats are the top of the table: the table is the threat list
    followed by rows that score less than 5. *)
Theorem threats_head_the_table (sorter : SortValues) (vulns : list Vuln.t)
  (df : DataFrame Event.t) (res : Analysis) :
  analyze vulns df = Ok res ->
  exists rest,
    suspicious res = threats res ++ rest
    /\ Forall (fun r => risk_score r < 5) rest.
Proof.
  intros H. apply analyze_inv in H. destruct H as (_ & _ & Hs & Ht).
  rewrite Ht. apply filter_sorted_prefix. rewrite Hs. apply sort_values_sorted.
Qed.

(** One address above the threshold and two below. *)
Definition ranked_events : DataFrame Event.t :=
  from_records Event.keys
    [event "dns" (Some "10.0.0.7") None;
     event "alert" (Some "10.0.0.6") None;
     event "alert" (Some "10.0.0.5") (Some 1)].

Lemma threats_head_the_table_witness :
  exists res,
    analyze (sorter := stable_sort) [] ranked_events = Ok res
    /\ exists rest,
         suspicious res = threats res ++ rest
         /\ Forall (fun r => risk_score r < 5) rest.
Proof.
  eexists. split; [reflexivity|].
  apply (threats_head_the_table stable_sort [] ranked_events). reflexivity.
Defined.

Example ranked_events_table :
  exists res,
    analyze (sorter := stable_sort) [] ranked_events = Ok res
    /\ map src_ip (threats res) = [Some "10.0.0.5"]
    /\ map src_ip (suspicious res)
       = [Some "10.0.0.5"; Some "10.0.0.6"; Some "10.0.0.7"].
Proof. eexists. split; [reflexivity|]. split; reflexivity. Qed.


(** ** [analyze]: missing columns *)

(** [analyze] needs the columns event_type, src_ip and severity: it
    returns only on frames that have the three, and on a frame that lacks
    one it raises the KeyError of the first of them that is missing, in
    that order. *)
Theorem analyze_needs_the_columns (sorter : SortValues)
  (vulns : list Vuln.t) (df : DataFrame Event.t) :
  (forall res, analyze vulns df = Ok res -> has_event_columns df)
  /\ (has_column df "event_type" = false ->
      analyze vulns df = Raise (KeyError "event_type"))
  /\ (has_column df "event_type" = true -> has_column df "src_ip" = false ->
      analyze vulns df = Raise (KeyError "src_ip"))
  /\ (has_column df "event_type" = true -> has_column df "src_ip" = true ->
      has_column df "severity" = false ->
      analyze vulns df = Raise (KeyError "severity")).
Proof.
  split.
  - intros res H. apply analyze_inv in H. tauto.
  - unfold analyze, groupby_size, column, boolean_index, has_column.
    cbn [columns rows].
    repeat split; intros;
      repeat match goal with
             | H : existsb _ _ = _ |- _ => rewrite H; clear H
             end;
      reflexivity.
Qed.

Definition no_severity_column : DataFrame Event.t :=
  mkFrame ["timestamp"; "event_type"; "src_ip"]
          [event "alert" (Some "10.0.0.5") None].

Example analyze_without_severity_column :
  analyze (sorter := stable_sort) [] no_severity_column
  = Raise (KeyError "severity").
Proof. reflexivity. Qed.

(** ** [analyze]: the vulnerability list and the counters *)

(** The score [analyze] works with: the record's own, 0.0 when it has
    none or it is not a number. *)
Definition cvss_value (v : Vuln.t) : float :=
  fillna_float 0%float (to_numeric (Vuln.cvss v)).

Lemma combine_map {A B : Type} (f : A -> B) (l : list A) :
  combine l (map f l) = map (fun x => (x, f x)) l.
Proof.
  induction l as [|x l IH]; simpl; [reflexivity | rewrite IH; reflexivity].
Qed.

Section AnalyzeVulns.

Context {sorter : SortValues}.

Lemma analyze_vulns_inv (vulns : list Vuln.t) (df : DataFrame Event.t)
  (res : Analysis) :
  analyze vulns df = Ok res ->
  vulns_df res = map (fun v => (v, cvss_value v)) vulns
  /\ high_cvss res
     = filter (fun p => PrimFloat.leb CVSS_THRESHOLD (snd p)) (vulns_df res)
  /\ stats res
     = mkStats (Z.of_nat (List.length vulns))
               (Z.of_nat (List.length (high_cvss res)))
               (Z.of_nat (List.length (rows df)))
               (Z.of_nat (List.length (alerts_of (rows df))))
               (Z.of_nat (List.length (dns_of (rows df))))
               (Z.of_nat (List.length (threats res))).
Proof.
  unfold analyze. cbv zeta.
  set (V := combine (rows (from_records Vuln.keys vulns)) _).
  assert (V = map (fun v => (v, cvss_value v)) vulns) as EV.
  { subst V. destruct vulns as [|v vs]; [reflexivity|].
    change (has_column (from_records Vuln.keys (v :: vs)) "cvss") with true.
    cbn [from_records rows]. rewrite map_map. apply (combine_map cvss_value). }
  clearbody V.
  unfold groupby_size, column, boolean_index, has_column.
  cbn [columns rows].
  destruct (existsb (String.eqb "event_type") (columns df));
    cbn [bind columns rows]; [|discriminate].
  destruct (existsb (String.eqb "src_ip") (columns df));
    cbn [bind columns rows]; [|discriminate].
  destruct (existsb (String.eqb "severity") (columns df));
    cbn [bind columns rows]; [|discriminate].
  intros E. injection E as <-. cbn [vulns_df high_cvss stats threats].
  rewrite !map_map, !select_filter. subst V. rewrite length_map.
  repeat split; reflexivity.
Qed.

End AnalyzeVulns.

Lemma cvss_value_not_nan (v : Vuln.t) : PrimFloat.is_nan (cvss_value v) = false.
Proof.
  unfold cvss_value, fillna_float.
  destruct (PrimFloat.is_nan (to_numeric (Vuln.cvss v))) eqn:N;
    [reflexivity | exact N].
Qed.

(** The vulnerability frame keeps every record in order, its score column
    holds no NaN, and the high-CVSS selection is the records whose score
    is at least 8.0; a record without a score counts as 0.0 and is never
    selected. *)
Theorem high_cvss_selection (sorter : SortValues) (vulns : list Vuln.t)
  (df : DataFrame Event.t) (res : Analysis) :
  analyze vulns df = Ok res ->
  map fst (vulns_df res) = vulns
  /\ Forall (fun p => PrimFloat.is_nan (snd p) = false) (vulns_df res)
  /\ (forall v x,
         In (v, x) (high_cvss res)
         <-> In v vulns /\ x = cvss_value v
             /\ PrimFloat.leb CVSS_THRESHOLD x = true)
  /\ (forall v x, Vuln.cvss v = None -> ~ In (v, x) (high_cvss res)).
Proof.
  intros H. apply analyze_vulns_inv in H. destruct H as (Ev & Eh & _).
  assert (forall v x,
             In (v, x) (high_cvss res)
             <-> In v vulns /\ x = cvss_value v
                 /\ PrimFloat.leb CVSS_THRESHOLD x = true) as Hin.
  { intros v x. rewrite Eh, Ev, filter_In, in_map_iff. cbn [snd]. split.
    - intros [(v' & E & Hv) Hx]. injection E as -> ->. tauto.
    - intros (Hv & -> & Hx). split; [|exact Hx]. exists v. tauto. }
  split; [|split; [|split]].
  - rewrite Ev, map_map. apply map_id.
  - rewrite Ev. apply Forall_forall. intros p Hp.
    apply in_map_iff in Hp. destruct Hp as (v & <- & _).
    apply cvss_value_not_nan.
  - exact Hin.
  - intros v x Hc Hx. apply Hin in Hx. destruct Hx as (_ & -> & Hx).
    unfold cvss_value in Hx. rewrite Hc in Hx. discriminate.
Qed.

Definition sample_vulns : list Vuln.t :=
  [Vuln.mk "CVE-2024-0001" "remote code execution" (Some 9.5%float) None [];
   Vuln.mk "CVE-2024-0002" "information leak" (Some 7%float) None [];
   Vuln.mk "CVE-2024-0003" "no score yet" None None [];
   Vuln.mk "CVE-2024-0004" "score is not a number" (Some nan) None [];
   Vuln.mk "CVE-2024-0005" "at the threshold" (Some 8%float) None []].

Lemma high_cvss_selection_witness :
  exists res,
    analyze (sorter := stable_sort) sample_vulns scenario_A = Ok res
    /\ map fst (vulns_df res) = sample_vulns
    /\ Forall (fun p => PrimFloat.is_nan (snd p) = false) (vulns_df res)
    /\ (forall v x,
           In (v, x) (high_cvss res)
           <-> In v sample_vulns /\ x = cvss_value v
               /\ PrimFloat.leb CVSS_THRESHOLD x = true)
    /\ (forall v x, Vuln.cvss v = None -> ~ In (v, x) (high_cvss res)).
Proof.
  eexists. split; [reflexivity|].
  apply (high_cvss_selection stable_sort sample_vulns scenario_A). reflexivity.
Defined.

Example sample_vulns_high :
  exists res,
    analyze (sorter := stable_sort) sample_vulns scenario_A = Ok res
    /\ map (fun p => Vuln.id (fst p)) (high_cvss res)
       = ["CVE-2024-0001"; "CVE-2024-0005"]
    /\ map snd (vulns_df res) = [9.5; 7; 0; 0; 8]%float.
Proof. eexists. split; [reflexivity|]. split; reflexivity. Qed.

Lemma alert_is_not_dns (e : Event.t) : is_alert e = true -> is_dns e = false.
Proof.
  unfold is_alert, is_dns, eq_str. intros H.
  destruct (cell_eqb_spec (Event.event_type e) (Some "alert")) as [E|];
    [|discriminate].
  rewrite E. reflexivity.
Qed.

Lemma disjoint_filters_length {A : Type} (p q : A -> bool) (l : list A) :
  (forall x, p x = true -> q x = false) ->
  (List.length (filter p l) + List.length (filter q l) <= List.length l)%nat.
Proof.
  intros D. induction l as [|x l IH]; simpl; [lia|].
  destruct (p x) eqn:P.
  - rewrite (D x P). simpl. lia.
  - destruct (q x); simpl; lia.
Qed.

(** The counters of the report agree with the tables: alerts and dns
    queries are disjoint parts of the events, the high-CVSS records are
    part of the vulnerabilities, and there are no more threats than rows
    and no more rows than alert and dns events. *)
Theorem counters_are_consistent (sorter : SortValues) (vulns : list Vuln.t)
  (df : DataFrame Event.t) (res : Analysis) :
  analyze vulns df = Ok res ->
  total_vulns (stats res) = Z.of_nat (List.length vulns)
  /\ suricata_events (stats res) = Z.of_nat (List.length (rows df))
  /\ alert_events (stats res) = Z.of_nat (List.length (rows (alerts_df res)))
  /\ threat_ips (stats res) = Z.of_nat (List.length (threats res))
  /\ 0 <= high_cvss_count (stats res) <= total_vulns (stats res)
  /\ alert_events (stats res) + dns_events (stats res)
     <= suricata_events (stats res)
  /\ threat_ips (stats res) <= Z.of_nat (List.length (suspicious res))
     <= alert_events (stats res) + dns_events (stats res).
Proof.
  intros H. pose proof (analyze_vulns_inv vulns df res H) as (Ev & Eh & Es).
  apply analyze_inv in H. destruct H as (_ & Ea & Hs & Ht).
  rewrite Es, Ea. cbn [total_vulns suricata_events alert_events threat_ips
                         high_cvss_count dns_events rows].
  repeat split; try lia.
  - rewrite Eh, Ev. apply Nat2Z.inj_le.
    etransitivity; [apply filter_length_le|]. rewrite length_map. lia.
  - rewrite <- Nat2Z.inj_add. apply Nat2Z.inj_le.
    apply disjoint_filters_length. exact alert_is_not_dns.
  - apply Nat2Z.inj_le. rewrite Ht. apply filter_length_le.
  - rewrite <- Nat2Z.inj_add. apply Nat2Z.inj_le.
    rewrite Hs, (Permutation_length (sort_values_perm risk_score _)).
    rewrite <- (length_map src_ip). unfold grouped. rewrite joined_addresses.
    rewrite <- (length_map Event.src_ip (alerts_of (rows df))).
    rewrite <- (length_map Event.src_ip (dns_of (rows df))).
    rewrite <- length_app.
    apply NoDup_incl_length; [apply union_index_NoDup|].
    intros k Hk. apply union_index_In in Hk. rewrite !group_sizes_index in Hk.
    apply in_or_app. destruct Hk as [[Hk _] | [[Hk _] | [Hk _]]]; auto.
    left. unfold high_of in Hk. apply in_map_iff in Hk.
    destruct Hk as (e & E & He). apply filter_In in He.
    apply in_map_iff. exists e. tauto.
Qed.

Lemma counters_are_consistent_witness :
  exists res,
    analyze (sorter := stable_sort) sample_vulns mixed_events = Ok res
    /\ total_vulns (stats res) = Z.of_nat (List.length sample_vulns)
    /\ suricata_events (stats res)
       = Z.of_nat (List.length (rows mixed_events))
    /\ alert_events (stats res) = Z.of_nat (List.length (rows (alerts_df res)))
    /\ threat_ips (stats res) = Z.of_nat (List.length (threats res))
    /\ 0 <= high_cvss_count (stats res) <= total_vulns (stats res)
    /\ alert_events (stats res) + dns_events (stats res)
       <= suricata_events (stats res)
    /\ threat_ips (stats res) <= Z.of_nat (List.length (suspicious res))
       <= alert_events (stats res) + dns_events (stats res).
Proof.
  eexists. split; [reflexivity|].
  apply (counters_are_consistent stable_sort sample_vulns mixed_events).
  reflexivity.
Defined.

(** The vulnerability list has no part in the event statistics: two
    runs of [analyze] on the same events return the same table, the same
    threats and the same alert frame, whatever the two vulnerability
    lists. *)
Theorem statistics_ignore_vulnerabilities (sorter : SortValues)
  (vulns vulns' : list Vuln.t) (df : DataFrame Event.t)
  (res res' : Analysis) :
  analyze vulns df = Ok res ->
  analyze vulns' df = Ok res' ->
  suspicious res' = suspicious res
  /\ threats res' = threats res
  /\ alerts_df res' = alerts_df res.
Proof.
  intros H H'. apply analyze_inv in H, H'.
  destruct H as (_ & Ea & Hs & Ht), H' as (_ & Ea' & Hs' & Ht').
  assert (suspicious res' = suspicious res) as E by congruence.
  repeat split; congruence.
Qed.

Lemma statistics_ignore_vulnerabilities_witness :
  exists res res',
    analyze (sorter := stable_sort) [] mixed_events = Ok res
    /\ analyze (sorter := stable_sort) sample_vulns mixed_events = Ok res'
    /\ suspicious res' = suspicious res
    /\ threats res' = threats res
    /\ alerts_df res' = alerts_df res.
Proof.
  do 2 eexists. split; [reflexivity|]. split; [reflexivity|].
  apply (statistics_ignore_vulnerabilities stable_sort [] sample_vulns
           mixed_events); reflexivity.
Defined.

(** ** [analyze]: no event is counted twice or lost *)

Definition total (column : StatRow -> Z) (table : list StatRow) : Z :=
  fold_right (fun r acc => column r + acc) 0 table.

Lemma total_perm (column : StatRow -> Z) (l l' : list StatRow) :
  Permutation l l' -> total column l = total column l'.
Proof.
  induction 1; simpl; lia.
Qed.

Definition hits (x : cell) (keys : list cell) : Z :=
  fold_right (fun k acc => Z.b2z (cell_eqb k x) + acc) 0 keys.

Lemma hits_NoDup (x : cell) (keys : list cell) :
  NoDup keys -> hits x keys = Z.b2z (mem x keys).
Proof.
  induction 1 as [|k keys Hk _ IH]; simpl; [reflexivity|].
  rewrite IH, (cell_eqb_sym x k).
  destruct (cell_eqb_spec k x) as [-> | N]; simpl; [|reflexivity].
  destruct (mem x keys) eqn:M; [|reflexivity].
  apply mem_In in M. contradiction.
Qed.

Lemma sum_of_counts (keys col : list cell) :
  NoDup keys ->
  fold_right (fun k acc => count k col + acc) 0 keys
  = Z.of_nat (List.length (filter (fun x => mem x keys) col)).
Proof.
  intros N. induction col as [|x col IH].
  - simpl. induction keys; simpl; [reflexivity|]. inversion N; subst.
    unfold count in *. simpl. auto.
  - assert (fold_right (fun k acc => count k (x :: col) + acc) 0 keys
            = hits x keys + fold_right (fun k acc => count k col + acc) 0 keys)
      as ->.
    { clear. induction keys as [|k keys IHk]; simpl; [reflexivity|].
      rewrite IHk. unfold count. simpl.
      destruct (cell_eqb k x); simpl List.length; simpl Z.b2z; lia. }
    rewrite IH, (hits_NoDup x keys N). simpl.
    destruct (mem x keys); simpl List.length; simpl Z.b2z; lia.
Qed.

Lemma total_joined (ac hc dc : Series) (column : StatRow -> Z)
  (value : cell -> Z) :
  (forall k, column (stat_row ac hc dc k) = value k) ->
  total column (joined ac hc dc)
  = fold_right (fun k acc => value k + acc) 0
      (union_index [map fst ac; map fst hc; map fst dc]).
Proof.
  intros E. unfold joined, total.
  induction (union_index _) as [|k l IH]; simpl; [reflexivity|].
  rewrite E, IH. reflexivity.
Qed.

Lemma sum_ext_in (f g : cell -> Z) (keys : list cell) :
  (forall k, In k keys -> f k = g k) ->
  fold_right (fun k acc => f k + acc) 0 keys
  = fold_right (fun k acc => g k + acc) 0 keys.
Proof.
  induction keys as [|k keys IH]; simpl; intros E; [reflexivity|].
  rewrite (E k), IH; auto.
Qed.

Lemma length_filter_sources (l : list Event.t) :
  List.length (filter notna (map Event.src_ip l))
  = List.length (filter has_source l).
Proof.
  induction l as [|e l IH]; simpl; [reflexivity|].
  unfold has_source at 1. destruct (notna (Event.src_ip e)); simpl; lia.
Qed.

(** Sum of one count column over the grouped table, for a subset of the
    events whose sources are among the grouped addresses. *)
Lemma total_of_grouped (events part : list Event.t)
  (column : StatRow -> Z) :
  (forall r a, In r (grouped events) -> src_ip r = Some a ->
               column r = events_from a part) ->
  (forall a, In (Some a) (map Event.src_ip part) ->
             In (Some a) (map src_ip (grouped events))) ->
  total column (grouped events)
  = Z.of_nat (List.length (filter has_source part)).
Proof.
  intros Hcol Hcov.
  assert (forall k, In k (map src_ip (grouped events)) -> notna k = true) as Hn.
  { intros k Hk. apply in_map_iff in Hk. destruct Hk as (r & <- & Hr).
    apply grouped_row in Hr. destruct Hr as (a & -> & _). reflexivity. }
  assert (NoDup (map src_ip (grouped events))) as N.
  { unfold grouped. rewrite joined_addresses. apply union_index_NoDup. }
  transitivity (fold_right (fun k acc => count k (map Event.src_ip part) + acc)
                           0 (map src_ip (grouped events))).
  - assert (forall l,
               (forall r, In r l ->
                          exists a, src_ip r = Some a
                                    /\ column r = events_from a part) ->
               total column l
               = fold_right
                   (fun k acc => count k (map Event.src_ip part) + acc)
                   0 (map src_ip l)) as T.
    { induction l as [|r l IH]; simpl; intros Hl; [reflexivity|].
      destruct (Hl r (or_introl eq_refl)) as (a & Ea & Ec).
      rewrite Ec, Ea, IH, count_map; [reflexivity|].
      intros r' Hr'. apply Hl. right. exact Hr'. }
    apply T. intros r Hr.
    destruct (grouped_row events r Hr) as (a & Ea & _). exists a.
    split; [exact Ea | apply Hcol; assumption].
  - rewrite (sum_of_counts _ _ N), <- length_filter_sources. do 2 f_equal.
    apply filter_ext_in. intros x Hx.
    destruct (mem x (map src_ip (grouped events))) eqn:M.
    + apply mem_In in M. symmetry. apply Hn. exact M.
    + destruct x as [a|]; [|reflexivity].
      specialize (Hcov a Hx). apply mem_In in Hcov. congruence.
Qed.

(** The count columns add up to the events that were grouped: the sum of
    alert_count is the number of alert events that carry a source
    address, likewise for the high-severity alerts and the dns queries. *)
Theorem counts_add_up (sorter : SortValues) (vulns : list Vuln.t)
  (df : DataFrame Event.t) (res : Analysis) :
  analyze vulns df = Ok res ->
  total alert_count (suspicious res)
  = Z.of_nat (List.length (filter has_source (alerts_of (rows df))))
  /\ total high_severity_alert_count (suspicious res)
     = Z.of_nat (List.length (filter has_source (high_of (rows df))))
  /\ total dns_query_count (suspicious res)
     = Z.of_nat (List.length (filter has_source (dns_of (rows df)))).
Proof.
  intros H. apply analyze_inv in H. destruct H as (_ & _ & Hs & _).
  rewrite Hs.
  rewrite !(total_perm _ _ _ (sort_values_perm risk_score (grouped (rows df)))).
  assert (forall a part,
             In (Some a) (map Event.src_ip part) ->
             incl part (alerts_of (rows df)) \/ incl part (dns_of (rows df)) ->
             In (Some a) (map src_ip (grouped (rows df)))) as Hcov.
  { intros a part Hin Hincl.
    destruct (grouped_covers (rows df) a) as (r & Hr & <-).
    - apply in_map_iff in Hin. destruct Hin as (e & E & He).
      destruct Hincl as [I | I]; [left | right];
        rewrite <- E; apply in_map, I, He.
    - apply in_map. exact Hr. }
  repeat split; apply total_of_grouped.
  - intros r a Hr Ea. apply grouped_row in Hr.
    destruct Hr as (a' & Ea' & _ & E & _). congruence.
  - intros a Ha. apply (Hcov a _ Ha). left. apply incl_refl.
  - intros r a Hr Ea. apply grouped_row in Hr.
    destruct Hr as (a' & Ea' & _ & _ & E & _). congruence.
  - intros a Ha. apply (Hcov a _ Ha). left. unfold high_of.
    apply incl_filter.
  - intros r a Hr Ea. apply grouped_row in Hr.
    destruct Hr as (a' & Ea' & _ & _ & _ & E & _). congruence.
  - intros a Ha. apply (Hcov a _ Ha). right. apply incl_refl.
Qed.

Lemma counts_add_up_witness :
  exists res,
    analyze (sorter := stable_sort) [] mixed_events = Ok res
    /\ total alert_count (suspicious res)
       = Z.of_nat (List.length (filter has_source (alerts_of (rows mixed_events))))
    /\ total high_severity_alert_count (suspicious res)
       = Z.of_nat (List.length (filter has_source (high_of (rows mixed_events))))
    /\ total dns_query_count (suspicious res)
       = Z.of_nat (List.length (filter has_source (dns_of (rows mixed_events)))).
Proof.
  eexists. split; [reflexivity|].
  apply (counts_add_up stable_sort [] mixed_events). reflexivity.
Defined.

(** In [mixed_events] four of the five alerts carry a source. *)
Example mixed_events_totals :
  exists res,
    analyze (sorter := stable_sort) [] mixed_events = Ok res
    /\ total alert_count (suspicious res) = 4
    /\ alert_events (stats res) = 5.
Proof. eexists. split; [reflexivity|]. split; reflexivity. Qed.

Lemma risk_score_fits_int64_witness :
  exists res,
    analyze (sorter := stable_sort) [] mixed_events = Ok res
    /\ Forall (fun r => 0 <= alert_count r < 2 ^ 63
                        /\ 0 <= high_severity_alert_count r < 2 ^ 63
                        /\ 0 <= dns_query_count r < 2 ^ 63
                        /\ 0 <= risk_score r < 2 ^ 63) (suspicious res).
Proof.
  eexists. split; [reflexivity|].
  apply (risk_score_fits_int64 (sorter := stable_sort) [] mixed_events);
    reflexivity.
Defined.

(** ** [simulate_response] *)

(** The two notification settings, [os.getenv(name, "")]. *)
Record Channels : Type := mkChannels {
  TELEGRAM_CHAT_ID : option string;
  ALERT_EMAIL : option string
}.

Definition block_msg (src : cell) (score : Z) : string :=
  "[ACTION] SIMULATED BLOCK: " ++ str_of_cell src ++ " (risk_score="
    ++ str_of_int score ++ ")".

(** What [simulate_response] prints, line by line. *)
Definition simulate_response_prints (env : Channels)
  (threats_df : list StatRow) : list string :=
  match threats_df with
  | [] => ["[INFO] Threats not detected."]
  | _ :: _ =>
      let telegram_chat := fillna "" (TELEGRAM_CHAT_ID env) in
      let alert_email := fillna "" (ALERT_EMAIL env) in
      flat_map
        (fun row =>
           let src := src_ip row in
           let score := risk_score row in
           [block_msg src score; notify_msg src score]
           ++ (if negb (telegram_chat =? "")%string
               then [("[NOTIFY] Telegram message to chat " ++ telegram_chat
                        ++ ": " ++ notify_msg src score)%string]
               else [])
           ++ (if negb (alert_email =? "")%string
               then [("[NOTIFY] Email to " ++ alert_email ++ ": "
                        ++ notify_msg src score)%string]
               else []))
        threats_df
  end.

Definition configured (c : option string) : Z :=
  Z.b2z (negb (fillna "" c =? "")%string).

(** [simulate_response] returns one action per threat row, in the order
    of the rows, with the row's address and score and the block flag
    set; it never drops or adds an address. *)
Theorem one_action_per_threat (threats_df : list StatRow) :
  map Action.src_ip (simulate_response threats_df) = map src_ip threats_df
  /\ map Action.risk_score (simulate_response threats_df)
     = map risk_score threats_df
  /\ Forall (fun a => Action.simulated_block a = true
                      /\ Action.notification a
                         = notify_msg (Action.src_ip a) (Action.risk_score a))
            (simulate_response threats_df).
Proof.
  destruct threats_df as [|r l]; [repeat split; constructor|].
  unfold simulate_response. rewrite !map_map. cbn [Action.src_ip Action.risk_score].
  repeat split. apply Forall_map, Forall_forall. intros x _. split; reflexivity.
Qed.

(** What is printed: one line when there is no threat; otherwise two
    lines per threat and one more per threat for each notification
    setting that is not empty. *)
Theorem printed_lines (env : Channels) (threats_df : list StatRow) :
  Z.of_nat (List.length (simulate_response_prints env threats_df))
  = match threats_df with
    | [] => 1
    | _ :: _ =>
        Z.of_nat (List.length threats_df)
        * (2 + configured (TELEGRAM_CHAT_ID env) + configured (ALERT_EMAIL env))
    end.
Proof.
  destruct threats_df as [|r l]; [reflexivity|].
  unfold simulate_response_prints, configured.
  generalize (r :: l). intros t.
  induction t as [|x t IH]; [reflexivity|].
  cbn [flat_map]. rewrite !length_app, !Nat2Z.inj_add, IH.
  cbn [List.length]. rewrite Nat2Z.inj_succ.
  destruct (negb (fillna "" (TELEGRAM_CHAT_ID env) =? "")%string),
           (negb (fillna "" (ALERT_EMAIL env) =? "")%string);
    cbn [List.length Z.b2z]; lia.
Qed.

Example response_to_scenario_A :
  simulate_response_prints (mkChannels (Some "42") None)
    [mkStat (Some "10.0.0.5") 1 1 1 7]
  = ["[ACTION] SIMULATED BLOCK: 10.0.0.5 (risk_score=7)";
     "[ALERT] Threat detected from 10.0.0.5. Risk score=7.";
     "[NOTIFY] Telegram message to chat 42: [ALERT] Threat detected from 10.0.0.5. Risk score=7."].
Proof. reflexivity. Qed.

(** [analyze] then [simulate_response]: the addresses blocked are
    distinct strings, each scores at least 5, and they come in
    non-increasing order of score. *)
Theorem blocked_addresses (sorter : SortValues) (vulns : list Vuln.t)
  (df : DataFrame Event.t) (res : Analysis) :
  analyze vulns df = Ok res ->
  let actions := simulate_response (threats res) in
  NoDup (map Action.src_ip actions)
  /\ Forall (fun a => Action.src_ip a <> None /\ Action.risk_score a >= 5)
            actions
  /\ descending (map Action.risk_score actions)
  /\ List.length actions = List.length (threats res).
Proof.
  intros H actions.
  assert (actions = map (fun row => Action.mk (src_ip row) (risk_score row) true
                                      (notify_msg (src_ip row) (risk_score row)))
                        (threats res)) as E.
  { subst actions. destruct (threats res); reflexivity. }
  apply analyze_inv in H. destruct H as (_ & _ & Hs & Ht).
  assert (NoDup (map src_ip (suspicious res))) as N.
  { rewrite Hs.
    apply (Permutation_NoDup
             (Permutation_map src_ip
                (Permutation_sym (sort_values_perm risk_score _)))).
    unfold grouped. rewrite joined_addresses. apply union_index_NoDup. }
  rewrite E, !map_map. cbn [Action.src_ip Action.risk_score].
  split; [|split; [|split]].
  - rewrite Ht. apply distinct_after_filter. exact N.
  - apply Forall_map, Forall_forall. intros r Hr. cbn.
    rewrite Ht in Hr. apply filter_In in Hr. destruct Hr as [Hr Hge].
    rewrite Hs in Hr. apply sort_values_In, grouped_row in Hr.
    destruct Hr as (a & Ea & _). split; [congruence | lia].
  - rewrite Ht.
    pose proof (sort_values_sorted risk_score (grouped (rows df))) as S.
    rewrite <- Hs in S. clear - S. unfold descending in *.
    induction (suspicious res) as [|r l IH]; simpl; [constructor|].
    inversion S as [|? ? Sl Hr]; subst.
    destruct (risk_score r >=? 5); simpl; auto.
    constructor; auto.
    apply Forall_forall. intros z Hz. rewrite Forall_forall in Hr. apply Hr.
    apply in_map_iff in Hz. destruct Hz as (x & <- & Hx).
    apply filter_In in Hx. apply in_map. tauto.
  - apply length_map.
Qed.

Lemma blocked_addresses_witness :
  exists res,
    analyze (sorter := stable_sort) [] mixed_events = Ok res
    /\ let actions := simulate_response (threats res) in
       NoDup (map Action.src_ip actions)
       /\ Forall (fun a => Action.src_ip a <> None /\ Action.risk_score a >= 5)
                 actions
       /\ descending (map Action.risk_score actions)
       /\ List.length actions = List.length (threats res).
Proof.
  eexists. split; [reflexivity|].
  apply (blocked_addresses stable_sort [] mixed_events). reflexivity.
Defined.

(** ** [load_suricata_events] *)

(** A value the code can call [.get] on after [or {}]: a dict, or
    anything falsy. *)
Definition dict_or_falsy (v : json) : bool :=
  match v with
  | JObj _ => true
  | _ => negb (truthy v)
  end.

(** A top-level member of an event, [None] when absent. *)
Definition member (evt : json) (k : string) : json :=
  match evt with
  | JObj fields => fillna JNull (lookup k fields)
  | _ => JNull
  end.

(** A member of a member, [None] when either is absent or null. *)
Definition nested (evt : json) (outer inner : string) : json :=
  match field evt outer with
  | Some o => fillna JNull (field o inner)
  | None => JNull
  end.

Definition is_object (v : json) : bool :=
  match v with JObj _ => true | _ => false end.

Lemma dict_or_falsy_not_object (c : json) :
  is_object c = false -> dict_or_falsy c = negb (truthy c).
Proof. destruct c; try discriminate; reflexivity. Qed.

Lemma get_or_empty_raises (c : json) (k : string) :
  match get (py_or c (JObj [])) k JNull with
  | Ok v => dict_or_falsy c = true /\ v = fillna JNull (field c k)
  | Raise e => dict_or_falsy c = false /\ e = AttributeError
  end.
Proof.
  unfold py_or. destruct (is_object c) eqn:O.
  - destruct c; try discriminate. cbn [dict_or_falsy].
    assert (get (JObj fields) k JNull = Ok (fillna JNull (field (JObj fields) k)))
      as G.
    { cbn [get field]. destruct (lookup k fields) as [x|]; [destruct x|];
        reflexivity. }
    destruct (truthy (JObj fields)) eqn:T.
    + rewrite G. split; reflexivity.
    + destruct fields; [|discriminate]. split; reflexivity.
  - rewrite (dict_or_falsy_not_object c O).
    destruct (truthy c) eqn:T.
    + destruct c; try discriminate; split; reflexivity.
    + cbn [get lookup negb]. split; [reflexivity|].
      destruct c; try discriminate; reflexivity.
Qed.

Lemma nested_member (fields : list (string * json)) (outer inner : string) :
  fillna JNull (field (member (JObj fields) outer) inner)
  = nested (JObj fields) outer inner.
Proof.
  unfold nested, member. cbn [field].
  destruct (lookup outer fields) as [o|]; [destruct o|]; reflexivity.
Qed.

Lemma row_of_cases (evt : json) :
  match Suricata.row_of evt with
  | Ok r =>
      is_object evt = true
      /\ dict_or_falsy (member evt "alert") = true
      /\ dict_or_falsy (member evt "dns") = true
      /\ Suricata.timestamp r = member evt "timestamp"
      /\ Suricata.event_type r = member evt "event_type"
      /\ Suricata.src_ip r = member evt "src_ip"
      /\ Suricata.dest_ip r = member evt "dest_ip"
      /\ Suricata.severity r = nested evt "alert" "severity"
      /\ Suricata.signature r = nested evt "alert" "signature"
      /\ Suricata.dns_rrname r = nested evt "dns" "rrname"
  | Raise e =>
      e = AttributeError
      /\ (is_object evt = false
          \/ dict_or_falsy (member evt "alert") = false
          \/ dict_or_falsy (member evt "dns") = false)
  end.
Proof.
  destruct evt as [| | | | | |fs];
    try (cbn; split; [reflexivity | left; reflexivity]).
  unfold Suricata.row_of.
  change (get (JObj fs) ?k JNull) with (Ok (member (JObj fs) k)).
  cbn [bind].
  pose proof (get_or_empty_raises (member (JObj fs) "alert") "severity") as Gs.
  pose proof (get_or_empty_raises (member (JObj fs) "alert") "signature") as Gg.
  pose proof (get_or_empty_raises (member (JObj fs) "dns") "rrname") as Gd.
  destruct (get (py_or (member (JObj fs) "alert") (JObj [])) "severity" JNull)
    as [sev|e]; cbn [bind].
  - destruct Gs as [Ha ->].
    destruct (get (py_or (member (JObj fs) "alert") (JObj [])) "signature" JNull)
      as [sig|e]; cbn [bind].
    + destruct Gg as [_ ->].
      destruct (get (py_or (member (JObj fs) "dns") (JObj [])) "rrname" JNull)
        as [rr|e]; cbn [bind].
      * destruct Gd as [Hd ->]. rewrite !nested_member.
        cbn [Suricata.timestamp Suricata.event_type Suricata.src_ip
             Suricata.dest_ip Suricata.severity Suricata.signature
             Suricata.dns_rrname is_object].
        repeat split; assumption.
      * destruct Gd as [Hd ->]. split; [reflexivity | right; right; exact Hd].
    + destruct Gg as [Hg _]. congruence.
  - destruct Gs as [Ha ->]. split; [reflexivity | right; left; exact Ha].
Qed.

(** What one event becomes.  An object whose [alert] and [dns] members
    are dicts (or absent, null, or otherwise falsy) gives a row: the four
    plain members as they are, the three nested ones looked up inside
    [alert] and [dns], each missing value [None].  Anything else, a JSON
    value that is not an object or a truthy [alert] or [dns] that is not
    a dict, raises AttributeError. *)
Theorem row_of_outcome (evt : json) :
  match Suricata.row_of evt with
  | Ok r =>
      is_object evt = true
      /\ dict_or_falsy (member evt "alert") = true
      /\ dict_or_falsy (member evt "dns") = true
      /\ Suricata.timestamp r = member evt "timestamp"
      /\ Suricata.event_type r = member evt "event_type"
      /\ Suricata.src_ip r = member evt "src_ip"
      /\ Suricata.dest_ip r = member evt "dest_ip"
      /\ Suricata.severity r = nested evt "alert" "severity"
      /\ Suricata.signature r = nested evt "alert" "signature"
      /\ Suricata.dns_rrname r = nested evt "dns" "rrname"
  | Raise e =>
      e = AttributeError
      /\ (is_object evt = false
          \/ dict_or_falsy (member evt "alert") = false
          \/ dict_or_falsy (member evt "dns") = false)
  end.
Proof. exact (row_of_cases evt). Qed.

Definition stamped (to_datetime : json -> json) (r : Suricata.Row)
  : Suricata.Row :=
  Suricata.set_timestamp r (to_datetime (Suricata.timestamp r)).

Lemma load_after_read (to_datetime : json -> json) (f : list Suricata.Line)
  (read : list Suricata.Row) :
  Suricata.read_lines f [] = Ok read ->
  Suricata.load_suricata_events to_datetime f
  = Ok (mkFrame (match read with [] => [] | _ :: _ => Event.keys end)
                (map (stamped to_datetime) read)).
Proof.
  intros E. unfold Suricata.load_suricata_events. rewrite E. cbn [bind].
  destruct read as [|r rs]; [reflexivity|].
  cbn [from_records empty columns rows Event.keys negb].
  unfold column.
  change (has_column _ "timestamp") with true. cbn [bind columns rows].
  do 2 f_equal. rewrite map_map.
  rewrite (combine_map (fun x => to_datetime (Suricata.timestamp x))).
  rewrite map_map. reflexivity.
Qed.

Lemma read_lines_rows (f : list Suricata.Line) (acc read : list Suricata.Row) :
  Suricata.read_lines f acc = Ok read ->
  exists new,
    read = acc ++ new
    /\ Forall2 (fun l r => exists evt,
                    l = Suricata.Doc evt /\ Suricata.row_of evt = Ok r)
               (filter not_blank f) new.
Proof.
  revert acc. induction f as [|l f IH]; intros acc E; simpl in E.
  - injection E as <-. exists []. rewrite app_nil_r. split; constructor.
  - destruct l as [| |evt]; simpl.
    + apply IH. exact E.
    + discriminate.
    + destruct (Suricata.row_of evt) as [r|] eqn:R; cbn [bind] in E;
        [|discriminate].
      destruct (IH _ E) as (new & -> & F). exists (r :: new).
      rewrite <- app_assoc. split; [reflexivity|].
      constructor; [exists evt; split; [reflexivity | exact R] | exact F].
Qed.

(** The frame the loader returns has one row per line that is not blank,
    and every such line holds an event that could be read; it has the
    seven columns when the file holds an event and no column at all when
    it holds none, in which case it is [empty]. *)
Theorem one_row_per_event (to_datetime : json -> json)
  (f : list Suricata.Line) (df : DataFrame Suricata.Row) :
  Suricata.load_suricata_events to_datetime f = Ok df ->
  List.length (rows df) = List.length (filter not_blank f)
  /\ Forall (fun l => exists evt row,
                 l = Suricata.Doc evt /\ Suricata.row_of evt = Ok row)
            (filter not_blank f)
  /\ columns df = match filter not_blank f with
                  | [] => []
                  | _ :: _ => Event.keys
                  end
  /\ empty df = match filter not_blank f with
                | [] => true
                | _ :: _ => false
                end.
Proof.
  intros H.
  destruct (Suricata.read_lines f []) as [read|e] eqn:R.
  - rewrite (load_after_read to_datetime f read R) in H. injection H as <-.
    cbn [rows columns].
    destruct (read_lines_rows f [] read R) as (new & -> & F). cbn [app].
    rewrite length_map, (Forall2_length F).
    split; [reflexivity|]. split.
    + clear R. induction F as [|l r ls rs (evt & -> & Hr) _ IH];
        constructor; [|exact IH].
      exists evt, r. split; [reflexivity | exact Hr].
    + destruct F; split; reflexivity.
  - unfold Suricata.load_suricata_events in H. rewrite R in H. discriminate.
Qed.

Definition two_events : list Suricata.Line :=
  [alert_line; Suricata.Blank; dns_line; Suricata.Blank].

Lemma one_row_per_event_witness :
  exists df,
    Suricata.load_suricata_events (fun t => t) two_events = Ok df
    /\ List.length (rows df) = List.length (filter not_blank two_events)
    /\ Forall (fun l => exists evt row,
                   l = Suricata.Doc evt /\ Suricata.row_of evt = Ok row)
              (filter not_blank two_events)
    /\ columns df = match filter not_blank two_events with
                    | [] => []
                    | _ :: _ => Event.keys
                    end
    /\ empty df = match filter not_blank two_events with
                  | [] => true
                  | _ :: _ => false
                  end.
Proof.
  eexists. split; [reflexivity|].
  apply (one_row_per_event (fun t => t) two_events). reflexivity.
Defined.

Lemma read_lines_stops_at_event (pre post : list Suricata.Line)
  (acc read : list Suricata.Row) (evt : json) (e : exn) :
  Suricata.read_lines pre acc = Ok read ->
  Suricata.row_of evt = Raise e ->
  Suricata.read_lines (pre ++ Suricata.Doc evt :: post) acc = Raise e.
Proof.
  revert acc. induction pre as [|l pre IH]; intros acc H R; simpl in *.
  - rewrite R. reflexivity.
  - destruct l as [| |evt']; [auto | discriminate |].
    destruct (Suricata.row_of evt') as [row|]; simpl in *;
      [auto | discriminate].
Qed.

(** An event the loop cannot turn into a row, a JSON value that is not
    an object or an event whose [alert] or [dns] is truthy and not a
    dict, aborts the ingestion with AttributeError at its line: the
    events read before it are lost and the lines after it are not looked
    at. *)
Theorem unreadable_event_aborts (to_datetime : json -> json)
  (pre post : list Suricata.Line) (read : list Suricata.Row) (evt : json) :
  Suricata.read_lines pre [] = Ok read ->
  is_object evt = false
  \/ dict_or_falsy (member evt "alert") = false
  \/ dict_or_falsy (member evt "dns") = false ->
  Suricata.load_suricata_events to_datetime (pre ++ Suricata.Doc evt :: post)
  = Raise AttributeError.
Proof.
  intros Hpre Hbad.
  assert (Suricata.row_of evt = Raise AttributeError) as R.
  { pose proof (row_of_cases evt) as O.
    destruct (Suricata.row_of evt) as [r|e].
    - destruct O as (Ho & Ha & Hd & _).
      destruct Hbad as [H | [H | H]]; congruence.
    - destruct O as [-> _]. reflexivity. }
  unfold Suricata.load_suricata_events.
  rewrite (read_lines_stops_at_event pre post [] read evt _ Hpre R).
  reflexivity.
Qed.

(** An event that is a JSON list, after one good line. *)
Definition list_event_file : list Suricata.Line :=
  [alert_line; Suricata.Doc (JArr [JInt 1; JInt 2]); dns_line].

Lemma unreadable_event_aborts_witness :
  Suricata.load_suricata_events (fun t => t) list_event_file
  = Raise AttributeError.
Proof.
  apply (unreadable_event_aborts (fun t => t) [alert_line] [dns_line]
           match Suricata.read_lines [alert_line] [] with
           | Ok read => read
           | Raise _ => []
           end (JArr [JInt 1; JInt 2])).
  - reflexivity.
  - left. reflexivity.
Defined.

(** An alert whose [alert] member is a string cannot be read either. *)
Example alert_as_text_raises :
  Suricata.row_of (JObj [("event_type", JStr "alert");
                         ("alert", JStr "ET SCAN")])
  = Raise AttributeError.
Proof. reflexivity. Qed.

(** ** [fetch_vulners_data] *)

Section FetchProperties.

Variable float_of_str : string -> option float.

Lemma fetch_cases (w : Vulners.World) :
  (Vulners.api_key w <> ""
   /\ (exists v vs,
          Vulners.remote_vulns float_of_str w (Vulners.api_key w) = Ok (v :: vs)
          /\ Vulners.fetch_vulners_data float_of_str w
             = Ok (JArr (v :: vs), "vulners_api")))
  \/ (remote_unusable float_of_str w
      /\ Vulners.fetch_vulners_data float_of_str w
         = (local_data <- Vulners.fallback_file w ;;
            Ok (local_data, "local_vulners_sample"))).
Proof.
  destruct (String.eqb_spec (Vulners.api_key w) "") as [E | N].
  - right. assert (remote_unusable float_of_str w) as U by (left; exact E).
    split; [exact U | apply fetch_local; exact U].
  - destruct (Vulners.remote_vulns float_of_str w (Vulners.api_key w))
      as [[|v vs]|e] eqn:R.
    + right. assert (remote_unusable float_of_str w) as U
        by (right; right; exact R).
      split; [exact U | apply fetch_local; exact U].
    + left. split; [exact N|]. exists v, vs. split; [reflexivity|].
      unfold Vulners.fetch_vulners_data. rewrite R.
      destruct (String.eqb_spec (Vulners.api_key w) ""); [contradiction|].
      reflexivity.
    + right. assert (remote_unusable float_of_str w) as U
        by (right; left; exists e; exact R).
      split; [exact U | apply fetch_local; exact U].
Qed.

(** The label tells the source: "vulners_api" comes with the non-empty
    list of records parsed from the remote payload, and
    "local_vulners_sample" with the content of the local file, used only
    when the remote source was unusable. *)
Theorem label_tells_the_source (w : Vulners.World) (data : json)
  (label : string) :
  Vulners.fetch_vulners_data float_of_str w = Ok (data, label) ->
  (label = "vulners_api"
   /\ Vulners.api_key w <> ""
   /\ exists v vs,
        Vulners.remote_vulns float_of_str w (Vulners.api_key w) = Ok (v :: vs)
        /\ data = JArr (v :: vs))
  \/ (label = "local_vulners_sample"
      /\ remote_unusable float_of_str w
      /\ Vulners.fallback_file w = Ok data).
Proof.
  intros H. destruct (fetch_cases w) as [(N & v & vs & R & F) | (U & F)];
    rewrite F in H.
  - injection H as <- <-. left. repeat split; [exact N|].
    exists v, vs. split; [exact R | reflexivity].
  - destruct (Vulners.fallback_file w) as [d|]; cbn [bind] in H;
      [|discriminate].
    injection H as <- <-. right. repeat split. exact U.
Qed.

(** [fetch_vulners_data] raises exactly when the remote source is
    unusable and the local file cannot be read; a readable local file
    always gives a result, and so does a usable remote source without any
    local file. *)
Theorem fetch_fails_only_without_local_file (w : Vulners.World) :
  (exists e, Vulners.fetch_vulners_data float_of_str w = Raise e)
  <-> remote_unusable float_of_str w
      /\ exists e, Vulners.fallback_file w = Raise e.
Proof.
  destruct (fetch_cases w) as [(N & v & vs & R & F) | (U & F)]; rewrite F.
  - split.
    + intros [e E]. discriminate.
    + intros [[U | [[e U] | U]] _]; congruence.
  - destruct (Vulners.fallback_file w) as [d|e]; cbn [bind]; split.
    + intros [e E]. discriminate.
    + intros [_ [e E]]. discriminate.
    + intros [e' E]. split; [exact U | exists e; reflexivity].
    + intros _. exists e. reflexivity.
Qed.

Lemma for_each_raises {A B : Type} (body : A -> result B) (items : list A)
  (x : A) (e : exn) :
  In x items -> body x = Raise e ->
  exists e', for_each body items = Raise e'.
Proof.
  induction items as [|y items IH]; simpl; [contradiction|].
  intros [-> | Hin] E.
  - rewrite E. eexists. reflexivity.
  - destruct (body y); cbn [bind]; [|eexists; reflexivity].
    destruct (IH Hin E) as [e' ->]. eexists. reflexivity.
Qed.

(** All or nothing: one document of the payload that cannot be parsed
    discards every record of the payload, and the local data is
    returned. *)
Theorem one_bad_document_discards_the_payload (w : Vulners.World)
  (docs : list json) (doc : json) (e : exn) :
  Vulners.remote_docs w (Vulners.api_key w) = Ok docs ->
  In doc docs ->
  Vulners.parse_doc float_of_str doc = Raise e ->
  Vulners.fetch_vulners_data float_of_str w
  = (local_data <- Vulners.fallback_file w ;;
     Ok (local_data, "local_vulners_sample")).
Proof.
  intros D Hin P. apply fetch_local. right. left.
  unfold Vulners.remote_vulns. rewrite D. cbn [bind].
  apply (for_each_raises _ docs doc e Hin P).
Qed.

End FetchProperties.

(** Two documents; the second has a number where the cvss object should
    be. *)
Definition second_document_bad : Vulners.World :=
  Vulners.mkWorld (Some "secret")
    (fun _ =>
       Ok (Vulners.mkResponse (Ok tt)
             (Ok (JObj [("data", JObj [("search", JArr [
                JObj [("id", JStr "CVE-1");
                      ("cvss", JObj [("score", JFloat 9.5%float)])];
                JObj [("id", JStr "CVE-2"); ("cvss", JFloat 5%float)]])])]))))
    (Ok sample_local_data).

Lemma one_bad_document_discards_the_payload_witness :
  Vulners.fetch_vulners_data no_float second_document_bad
  = (local_data <- Vulners.fallback_file second_document_bad ;;
     Ok (local_data, "local_vulners_sample")).
Proof.
  apply (one_bad_document_discards_the_payload no_float second_document_bad
           _ (JObj [("id", JStr "CVE-2"); ("cvss", JFloat 5%float)])
           AttributeError eq_refl).
  - right. left. reflexivity.
  - reflexivity.
Defined.

Lemma label_tells_the_source_witness :
  exists data label,
    Vulners.fetch_vulners_data no_float three_documents = Ok (data, label)
    /\ ((label = "vulners_api"
         /\ Vulners.api_key three_documents <> ""
         /\ exists v vs,
              Vulners.remote_vulns no_float three_documents
                (Vulners.api_key three_documents) = Ok (v :: vs)
              /\ data = JArr (v :: vs))
        \/ (label = "local_vulners_sample"
            /\ remote_unusable no_float three_documents
            /\ Vulners.fallback_file three_documents = Ok data)).
Proof.
  do 2 eexists. split; [reflexivity|].
  apply (label_tells_the_source no_float three_documents). reflexivity.
Defined.

(** Every record built from a document has the five keys id, title,
    cvss, published and references, in this order; cvss is a float and
    references holds the document's href or nothing.  The id is
    "unknown" only when the document has no id member: a null id stays
    null. *)
Theorem record_shape (float_of_str : string -> option float)
  (doc v : json) :
  Vulners.parse_doc float_of_str doc = Ok v ->
  exists fs x,
    doc = JObj fs
    /\ v = JObj [("id", fillna (JStr "unknown") (lookup "id" fs));
                 ("title", fillna (JStr "") (lookup "title" fs));
                 ("cvss", JFloat x);
                 ("published",
                  py_or (member doc "published") (member doc "lastseen"));
                 ("references",
                  JArr (if truthy (member doc "href")
                        then [member doc "href"] else []))].
Proof.
  unfold Vulners.parse_doc. intros H.
  destruct doc as [| | | | | |fs]; try discriminate.
  exists fs.
  change (get (JObj fs) "id" (JStr "unknown"))
    with (Ok (fillna (JStr "unknown") (lookup "id" fs))) in H.
  change (get (JObj fs) "title" (JStr ""))
    with (Ok (fillna (JStr "") (lookup "title" fs))) in H.
  change (get (JObj fs) ?k JNull) with (Ok (member (JObj fs) k)) in H.
  destruct (get (JObj fs) "cvss" (JObj [])) as [c|]; cbn [bind] in H;
    [|discriminate].
  destruct (get (py_or c (JObj [])) "score" JNull) as [s|]; cbn [bind] in H;
    [|discriminate].
  destruct (if is_None s then _ else _) as [s'|]; cbn [bind] in H;
    [|discriminate].
  destruct (if is_None s' then _ else _) as [x|]; cbn [bind] in H;
    [|discriminate].
  exists x. split; [reflexivity|].
  unfold py_or.
  destruct (truthy (member (JObj fs) "published"));
    destruct (truthy (member (JObj fs) "href")); cbn [bind] in H;
    injection H as <-; reflexivity.
Qed.

Definition null_id_document : json :=
  JObj [("id", JNull); ("lastseen", JStr "2024-05-01")].

Lemma record_shape_witness :
  exists v fs x,
    Vulners.parse_doc no_float null_id_document = Ok v
    /\ null_id_document = JObj fs
    /\ v = JObj [("id", fillna (JStr "unknown") (lookup "id" fs));
                 ("title", fillna (JStr "") (lookup "title" fs));
                 ("cvss", JFloat x);
                 ("published",
                  py_or (member null_id_document "published")
                        (member null_id_document "lastseen"));
                 ("references",
                  JArr (if truthy (member null_id_document "href")
                        then [member null_id_document "href"] else []))].
Proof.
  destruct (record_shape no_float null_id_document _ eq_refl)
    as (fs & x & E & Hv).
  eexists. exists fs, x. split; [reflexivity|]. split; assumption.
Defined.

Example record_with_null_id :
  Vulners.parse_doc no_float null_id_document
  = Ok (JObj [("id", JNull); ("title", JStr ""); ("cvss", JFloat 0%float);
              ("published", JStr "2024-05-01"); ("references", JArr [])]).
Proof. reflexivity. Qed.

(** * Homework13/homework13_mock_api.py: the mock API and its client *)

Module MockApi.

Definition HOST : string := "127.0.0.1".
Definition PORT : Z := 8089.
Definition API_PATH : string := "/api/v1/security/status".

(** [os.getenv("MOCK_API_KEY", "demo-key")] *)
Definition API_KEY (MOCK_API_KEY : option string) : string :=
  fillna "demo-key" MOCK_API_KEY.

(** What the handler reads of a request: [self.path] and
    [self.headers.get("X-API-Key")]. *)
Record Request : Type := mkRequest {
  path : string;
  x_api_key : option string
}.

(** What the handler sends: the status line, the content type and the
    payload that [json.dumps] turns into the body. *)
Record Response : Type := mkResponse {
  status_code : Z;
  content_type : string;
  payload : json
}.

Definition _send_json (status_code : Z) (payload : json) : Response :=
  mkResponse status_code "application/json; charset=utf-8" payload.

Definition key_matches (client_key : option string) (key : string) : bool :=
  match client_key with
  | Some k => (k =? key)%string
  | None => false
  end.

Definition status_payload (now : Z) : json :=
  JObj [("service", JStr "mock-av-fw");
        ("timestamp", JInt now);
        ("scan", JObj [("target", JStr "sample.exe");
                       ("status", JStr "completed");
                       ("verdict", JStr "clean");
                       ("engines", JObj [("detected", JInt 0);
                                         ("total", JInt 68)])]);
        ("firewall",
         JObj [("policy", JStr "default-deny-inbound");
               ("rules",
                JArr [JObj [("id", JStr "FW-1001"); ("action", JStr "allow");
                            ("proto", JStr "tcp"); ("port", JInt 443)];
                      JObj [("id", JStr "FW-1002"); ("action", JStr "allow");
                            ("proto", JStr "tcp"); ("port", JInt 22)];
                      JObj [("id", JStr "FW-1003"); ("action", JStr "deny");
                            ("proto", JStr "any"); ("port", JStr "*")]])])].

(** [MockHandler.do_GET]; [now] is [int(time.time())]. *)
Definition do_GET (key : string) (now : Z) (self : Request) : Response :=
  if negb (path self =? API_PATH)%string then
    _send_json 404 (JObj [("error", JStr "not_found")])
  else
    let client_key := x_api_key self in
    if negb (key_matches client_key key) then
      _send_json 401 (JObj [("error", JStr "unauthorized");
                            ("message", JStr "bad api key")])
    else
      _send_json 200 (status_payload now).

(** The exceptions the client retries on. *)
Inductive url_error : Type :=
| URLError (reason : string)
| HTTPError (code : Z).

(** One pass through the [try] block: [opener.open] raises URLError or
    HTTPError, something else is raised while the body is read and
    decoded, or the decoded document is there. *)
Inductive attempt : Type :=
| Refused (err : url_error)
| Broken (e : exn)
| Answer (data : json).

Inductive outcome : Type :=
| Returned
| Raised (e : exn)
| RuntimeError (last_err : option url_error).

(** What a call of [call_api] did: the documents printed, the number of
    requests sent, the number of [time.sleep(0.1)], and how it ended. *)
Record Run : Type := mkRun {
  printed : list json;
  requests : nat;
  sleeps : nat;
  ended : outcome
}.

(** The [for] loop with [n] turns left; [net i] is what the request
    number [i] meets. *)
Fixpoint attempts (n : nat) (net : nat -> attempt) (i : nat)
  (last_err : option url_error) (slept : nat) : Run :=
  match n with
  | O => mkRun [] i slept (RuntimeError last_err)
  | S n' =>
      match net i with
      | Answer data => mkRun [data] (S i) slept Returned
      | Broken e => mkRun [] (S i) slept (Raised e)
      | Refused exc => attempts n' net (S i) (Some exc) (S slept)
      end
  end.

Definition call_api (net : nat -> attempt) : Run := attempts 10 net 0%nat None 0%nat.

(** The request [call_api] builds. *)
Definition client_request (key : string) : Request :=
  mkRequest API_PATH (Some key).

(** The way of a request from [opener.open] to the handler.  [wire v]
    is what becomes of the header value [v]: the HTTP library raises
    before anything is sent when it cannot put the value in a header (a
    character outside latin-1, a line break), and the handler reads the
    value the header parser gives it, which is [v] without its leading
    blanks.  The path of the request is the constant [API_PATH] and
    arrives as sent. *)
Definition delivered (wire : string -> result string) (req : Request)
  : result Request :=
  match x_api_key req with
  | None => Ok req
  | Some sent => read <- wire sent ;; Ok (mkRequest (path req) (Some read))
  end.

(** The mock server seen from the client: a header that cannot be sent
    raises out of [opener.open] before a connection is tried; while the
    server is not up the connection is refused; once it is up the
    handler answers what it reads, and [opener.open] turns an answer
    that is not a success into HTTPError. *)
Definition served (server_key : string) (wire : string -> result string)
  (up : nat -> bool) (now : nat -> Z) (req : Request) (i : nat) : attempt :=
  match delivered wire req with
  | Raise e => Broken e
  | Ok read =>
      if up i then
        let r := do_GET server_key (now i) read in
        if (200 <=? status_code r) && (status_code r <? 300)
        then Answer (payload r)
        else Refused (HTTPError (status_code r))
      else Refused (URLError "Connection refused")
  end.

End MockApi.

(** ** The handler *)

Module MockApiFacts.

Import MockApi.

Lemma key_matches_spec (client_key : option string) (key : string) :
  reflect (client_key = Some key) (key_matches client_key key).
Proof.
  destruct client_key as [k|]; simpl; [|constructor; discriminate].
  destruct (String.eqb_spec k key); constructor; congruence.
Qed.

(** Skipping refused requests: [k] turns of the loop. *)
Lemma attempts_refused (net : nat -> attempt) (k n i : nat)
  (last_err : option url_error) (slept : nat) :
  (forall j, (j < k)%nat -> exists err, net (i + j)%nat = Refused err) ->
  exists last_err',
    attempts (k + n) net i last_err slept
    = attempts n net (i + k)%nat last_err' (slept + k)%nat
    /\ (k = 0%nat -> last_err' = last_err)
    /\ (forall k', k = S k' ->
                   exists err, net (i + k')%nat = Refused err
                               /\ last_err' = Some err).
Proof.
  revert i last_err slept. induction k as [|k IH]; intros i last_err slept H.
  - exists last_err. rewrite !Nat.add_0_r. repeat split. intros; discriminate.
  - destruct (H 0%nat) as [err E]; [lia|]. rewrite Nat.add_0_r in E.
    cbn [Nat.add attempts]. rewrite E.
    destruct (IH (S i) (Some err) (S slept)) as (le' & Ea & E0 & ES).
    { intros j Hj. destruct (H (S j)) as [err' E']; [lia|].
      exists err'. rewrite <- E'. f_equal. lia. }
    exists le'. split; [|split].
    + rewrite Ea. f_equal; lia.
    + discriminate.
    + intros k' Ek. injection Ek as <-. destruct k as [|k''].
      * exists err. rewrite Nat.add_0_r. split; [exact E | auto].
      * destruct (ES k'' eq_refl) as (err' & E' & ->).
        exists err'. split; [|reflexivity]. rewrite <- E'. f_equal. lia.
Qed.

Definition last_request (o : outcome) : nat :=
  match o with
  | RuntimeError _ => 0%nat
  | _ => 1%nat
  end.

Lemma attempts_invariant (net : nat -> attempt) (n i : nat)
  (last_err : option url_error) (slept : nat) :
  let r := attempts n net i last_err slept in
  (requests r <= i + n)%nat
  /\ (requests r + slept = sleeps r + i + last_request (ended r))%nat
  /\ match ended r with
     | Returned => exists data, printed r = [data]
     | Raised _ => printed r = []
     | RuntimeError le =>
         printed r = [] /\ requests r = (i + n)%nat
         /\ (last_err <> None \/ (0 < n)%nat -> le <> None)
     end.
Proof.
  revert i last_err slept. induction n as [|n IH]; intros i last_err slept.
  - cbn. repeat split; try lia. intros [H | H]; [exact H | lia].
  - cbn [attempts]. destruct (net i) as [err|e|data].
    + specialize (IH (S i) (Some err) (S slept)). cbv zeta in IH.
      destruct IH as (H1 & H2 & H3). cbv zeta.
      split; [lia|]. split; [lia|].
      destruct (ended (attempts n net (S i) (Some err) (S slept)));
        try exact H3.
      destruct H3 as (P & R & L). repeat split; [exact P | lia |].
      intros _. apply L. left. discriminate.
    + cbn. repeat split; lia.
    + cbn. repeat split; try lia. exists data. reflexivity.
Qed.

End MockApiFacts.

Import MockApi MockApiFacts.

(** The handler answers 404 on every path but the API path, whatever the
    key; on the API path it answers 401 unless the request carries
    exactly the configured key, and 200 with it.  A request without the
    header is a 401. *)
Theorem handler_status (key : string) (now : Z) (req : Request) :
  (status_code (do_GET key now req) = 404 <-> path req <> API_PATH)
  /\ (status_code (do_GET key now req) = 401
      <-> path req = API_PATH /\ x_api_key req <> Some key)
  /\ (status_code (do_GET key now req) = 200
      <-> path req = API_PATH /\ x_api_key req = Some key).
Proof.
  unfold do_GET.
  destruct (String.eqb_spec (path req) API_PATH) as [P | P]; cbn [negb].
  - destruct (key_matches_spec (x_api_key req) key) as [K | K];
      cbn [negb _send_json status_code];
      repeat split; try tauto; try discriminate; intros; tauto.
  - cbn [_send_json status_code].
    repeat split; try tauto; try discriminate; intros; tauto.
Qed.

(** Without the right key nothing of the status document leaves the
    server: the answer has neither a scan nor a firewall member, and it
    does not depend on the time or on the configured key. *)
Theorem status_document_needs_the_key (key : string) (now : Z)
  (req : Request) :
  x_api_key req <> Some key ->
  field (payload (do_GET key now req)) "scan" = None
  /\ field (payload (do_GET key now req)) "firewall" = None
  /\ forall key' now',
       x_api_key req <> Some key' -> do_GET key' now' req = do_GET key now req.
Proof.
  intros K. unfold do_GET.
  destruct (String.eqb_spec (path req) API_PATH) as [P | P]; cbn [negb].
  - destruct (key_matches_spec (x_api_key req) key); [contradiction|].
    cbn. repeat split. intros key' now' K'.
    destruct (key_matches_spec (x_api_key req) key'); [contradiction|].
    reflexivity.
  - cbn. repeat split.
Qed.

Lemma status_document_needs_the_key_witness :
  field (payload (do_GET "demo-key" 1700000000
                    (mkRequest API_PATH (Some "guess")))) "scan" = None
  /\ field (payload (do_GET "demo-key" 1700000000
                       (mkRequest API_PATH (Some "guess")))) "firewall" = None
  /\ forall key' now',
       x_api_key (mkRequest API_PATH (Some "guess")) <> Some key' ->
       do_GET key' now' (mkRequest API_PATH (Some "guess"))
       = do_GET "demo-key" 1700000000 (mkRequest API_PATH (Some "guess")).
Proof.
  apply (status_document_needs_the_key "demo-key" 1700000000
           (mkRequest API_PATH (Some "guess"))).
  discriminate.
Defined.

(** ** The client *)

(** [call_api] sends at most ten requests and sleeps once after each
    refused one.  It prints exactly one document when it returns and
    nothing otherwise, and it ends in RuntimeError only after ten refused
    requests, with the last error in the message. *)
Theorem call_api_bounds (net : nat -> attempt) :
  let r := call_api net in
  (requests r <= 10)%nat
  /\ match ended r with
     | Returned => sleeps r = (requests r - 1)%nat
                   /\ exists data, printed r = [data]
     | Raised _ => sleeps r = (requests r - 1)%nat /\ printed r = []
     | RuntimeError last_err =>
         requests r = 10%nat /\ sleeps r = 10%nat /\ printed r = []
         /\ last_err <> None
     end.
Proof.
  pose proof (attempts_invariant net 10 0 None 0) as H. cbv zeta in *.
  fold (call_api net) in H. destruct H as (H1 & H2 & H3).
  split; [lia|].
  destruct (ended (call_api net)); cbn [last_request] in H2.
  - split; [lia | exact H3].
  - split; [lia | exact H3].
  - destruct H3 as (P & R & L). repeat split; try lia; try exact P.
    apply L. right. lia.
Qed.

(** The first request that is answered ends the call: after [k] refused
    requests, [k] below ten, the document is printed, with [k] sleeps and
    [k + 1] requests, and later requests are never sent. *)
Theorem call_api_returns_first_answer (net : nat -> attempt) (k : nat)
  (data : json) :
  (k < 10)%nat ->
  (forall j, (j < k)%nat -> exists err, net j = Refused err) ->
  net k = Answer data ->
  call_api net = mkRun [data] (S k) k Returned.
Proof.
  intros Hk Href Hans. unfold call_api.
  replace 10%nat with (k + S (9 - k))%nat by lia.
  destruct (attempts_refused net k (S (9 - k)) 0 None 0 Href)
    as (le & -> & _).
  cbn [attempts Nat.add]. rewrite Hans. reflexivity.
Qed.

(** An exception that is not URLError or HTTPError, such as a body that
    is not JSON, is not retried: it leaves [call_api] at once. *)
Theorem call_api_does_not_retry_other_errors (net : nat -> attempt)
  (k : nat) (e : exn) :
  (k < 10)%nat ->
  (forall j, (j < k)%nat -> exists err, net j = Refused err) ->
  net k = Broken e ->
  call_api net = mkRun [] (S k) k (Raised e).
Proof.
  intros Hk Href Hb. unfold call_api.
  replace 10%nat with (k + S (9 - k))%nat by lia.
  destruct (attempts_refused net k (S (9 - k)) 0 None 0 Href)
    as (le & -> & _).
  cbn [attempts Nat.add]. rewrite Hb. reflexivity.
Qed.

(** Ten refused requests end in RuntimeError with the tenth error; an
    eleventh request is never sent. *)
Theorem call_api_gives_up_after_ten (net : nat -> attempt) :
  (forall j, (j < 10)%nat -> exists err, net j = Refused err) ->
  exists err,
    net 9%nat = Refused err
    /\ call_api net = mkRun [] 10 10 (RuntimeError (Some err)).
Proof.
  intros Href. unfold call_api.
  destruct (attempts_refused net 10 0 0 None 0 Href) as (le & E & _ & L).
  destruct (L 9%nat eq_refl) as (err & E9 & ->).
  exists err. split; [exact E9|]. exact E.
Qed.

(** A network that refuses three times and then answers. *)
Definition slow_start (i : nat) : attempt :=
  if (i <? 3)%nat then Refused (URLError "Connection refused")
  else Answer (status_payload 1700000000).

(** A network that answers the fourth request with text that is not
    JSON. *)
Definition bad_body (i : nat) : attempt :=
  if (i <? 3)%nat then Refused (URLError "Connection refused")
  else Broken JSONDecodeError.

Definition always_down (i : nat) : attempt :=
  Refused (URLError "Connection refused").

Ltac refused_below :=
  let j := fresh "j" in
  let Hj := fresh "Hj" in
  intros j Hj;
  repeat (destruct j as [|j]; [eexists; reflexivity|]);
  exfalso; lia.

Lemma call_api_returns_first_answer_witness :
  call_api slow_start = mkRun [status_payload 1700000000] 4 3 Returned.
Proof.
  apply (call_api_returns_first_answer slow_start 3 (status_payload 1700000000)).
  - lia.
  - refused_below.
  - reflexivity.
Defined.

Lemma call_api_does_not_retry_other_errors_witness :
  call_api bad_body = mkRun [] 4 3 (Raised JSONDecodeError).
Proof.
  apply (call_api_does_not_retry_other_errors bad_body 3 JSONDecodeError).
  - lia.
  - refused_below.
  - reflexivity.
Defined.

Lemma call_api_gives_up_after_ten_witness :
  exists err,
    always_down 9%nat = Refused err
    /\ call_api always_down = mkRun [] 10 10 (RuntimeError (Some err)).
Proof.
  apply (call_api_gives_up_after_ten always_down).
  intros j _. eexists. reflexivity.
Defined.

(** ** Client and server together *)

Lemma served_right_key (key : string) (wire : string -> result string)
  (up : nat -> bool) (now : nat -> Z) (i : nat) :
  wire key = Ok key ->
  served key wire up now (client_request key) i
  = if up i then Answer (status_payload (now i))
    else Refused (URLError "Connection refused").
Proof.
  intros W. unfold served, delivered, do_GET, client_request.
  cbn [path x_api_key]. rewrite W.
  cbn [Py.bind path x_api_key key_matches].
  rewrite !String.eqb_refl. reflexivity.
Qed.

Lemma served_wrong_key (server_key client_key read : string)
  (wire : string -> result string) (up : nat -> bool) (now : nat -> Z)
  (i : nat) :
  wire client_key = Ok read ->
  read <> server_key ->
  served server_key wire up now (client_request client_key) i
  = Refused (if up i then HTTPError 401 else URLError "Connection refused").
Proof.
  intros W N. unfold served, delivered, do_GET, client_request.
  cbn [path x_api_key]. rewrite W.
  cbn [Py.bind path x_api_key key_matches].
  rewrite String.eqb_refl. cbn [negb].
  destruct (String.eqb_spec read server_key) as [E | _]; [congruence|].
  cbn. destruct (up i); reflexivity.
Qed.

(** Server and client read the same key.  When that key reaches the
    handler as the client sent it, the client is never turned away: if
    the server comes up at request [k], [k] below ten, the client prints
    the status document of that moment after [k] sleeps. *)
Theorem client_reaches_the_server (key : string)
  (wire : string -> result string) (up : nat -> bool) (now : nat -> Z)
  (k : nat) :
  wire key = Ok key ->
  (k < 10)%nat ->
  (forall j, (j < k)%nat -> up j = false) ->
  up k = true ->
  call_api (served key wire up now (client_request key))
  = mkRun [status_payload (now k)] (S k) k Returned.
Proof.
  intros W Hk Hdown Hup. unfold call_api.
  replace 10%nat with (k + S (9 - k))%nat by lia.
  destruct (attempts_refused (served key wire up now (client_request key))
              k (S (9 - k)) 0 None 0) as (le & -> & _).
  { intros j Hj. cbn [Nat.add]. rewrite (served_right_key _ _ _ _ _ W), (Hdown j Hj).
    eexists. reflexivity. }
  cbn [attempts Nat.add]. rewrite (served_right_key _ _ _ _ _ W), Hup.
  reflexivity.
Qed.

Definition up_from (k : nat) (i : nat) : bool := (k <=? i)%nat.

(** A header value of letters, digits and hyphens arrives as sent. *)
Definition plain_wire (v : string) : result string := Ok v.

Lemma client_reaches_the_server_witness :
  call_api (served (API_KEY None) plain_wire (up_from 2)
              (fun i => 1700000000 + Z.of_nat i)
              (client_request (API_KEY None)))
  = mkRun [status_payload (1700000000 + Z.of_nat 2)] 3 2 Returned.
Proof.
  apply (client_reaches_the_server (API_KEY None) plain_wire (up_from 2)
           (fun i => 1700000000 + Z.of_nat i) 2).
  - reflexivity.
  - lia.
  - intros j Hj. unfold up_from. apply Nat.leb_gt. exact Hj.
  - reflexivity.
Defined.

(** A client whose key, as the handler reads it, is not the server's is
    refused every time, and a refusal is retried like an outage: ten
    requests, ten sleeps, then RuntimeError; nothing is printed. *)
Theorem wrong_key_is_retried_ten_times (server_key client_key read : string)
  (wire : string -> result string) (up : nat -> bool) (now : nat -> Z) :
  wire client_key = Ok read ->
  read <> server_key ->
  call_api (served server_key wire up now (client_request client_key))
  = mkRun [] 10 10
      (RuntimeError (Some (if up 9%nat then HTTPError 401
                           else URLError "Connection refused"))).
Proof.
  intros W N. unfold call_api.
  destruct (attempts_refused
              (served server_key wire up now (client_request client_key))
              10 0 0 None 0) as (le & E & _ & L).
  { intros j _. rewrite (served_wrong_key _ _ _ _ _ _ _ W N).
    eexists. reflexivity. }
  destruct (L 9%nat eq_refl) as (err & E9 & ->).
  rewrite (served_wrong_key _ _ _ _ _ _ _ W N) in E9. injection E9 as <-.
  exact E.
Qed.

Lemma wrong_key_is_retried_ten_times_witness :
  call_api (served "demo-key" plain_wire (fun _ => true) (fun _ => 1700000000)
              (client_request "other-key"))
  = mkRun [] 10 10 (RuntimeError (Some (HTTPError 401))).
Proof.
  apply (wrong_key_is_retried_ten_times "demo-key" "other-key" "other-key"
           plain_wire (fun _ => true) (fun _ => 1700000000)).
  - reflexivity.
  - discriminate.
Defined.

(** The header parser drops the blanks a value begins with: a key that
    begins with a blank is the server's own and yet never accepted. *)
Definition blank_dropping_wire (v : string) : result string :=
  match v with
  | String " " rest => Ok rest
  | _ => Ok v
  end.

Example own_key_with_leading_blank_is_refused :
  call_api (served " k" blank_dropping_wire (fun _ => true)
              (fun _ => 1700000000) (client_request " k"))
  = mkRun [] 10 10 (RuntimeError (Some (HTTPError 401))).
Proof. reflexivity. Qed.

(** A key that cannot be put in a header ends the call at the first
    request, whether the server is up or not. *)
Example unsendable_key_is_not_retried (e : exn) (up : nat -> bool) :
  call_api (served "k" (fun _ => Raise e) up (fun _ => 1700000000)
              (client_request "k"))
  = mkRun [] 1 0 (Raised e).
Proof. reflexivity. Qed.
